(** * Snowflake trial-to-trial migrator: a shallow embedding of [snowflakeMig.py]

    The development follows the source file top to bottom:
    - [PyStr]: the Python string operations the script relies on
      ([upper], [lower], [in], [strip], [repr], [{n:,}], padding);
    - [Regex]: the three [re.sub] passes of [rewrite_table_ddl];
    - the effect layer: every call that leaves the process (a SQL statement
      on one of the two sessions, the clock, the local file system) is a
      request answered by an environment, and the state threaded through the
      program is the log of what happened so far;
    - the catalog helpers, grant replay, [migrate_tables_with_user_stage] and
      [main], each under the name it has in the source.

    Modelling conventions.
    - Strings are the UTF-8 bytes of Python's [str].  On ASCII text the string
      operations are computed.  Where the result on other text depends on
      Python's Unicode tables ([str.upper], [repr], and the classes [\w], [\s]
      and the case folding of [re]), it is not computed: it is what the
      library returns, a parameter of the model ([Unicode]).  [str.lower] is
      only used to look for ASCII constants (a column name, a phrase of an
      error text), which lowering the ASCII letters decides.
    - An exception is what [except Exception] catches, carried as [str(e)].
      Interrupts delivered from outside ([KeyboardInterrupt]) are not part of
      the model.
    - [LOG_LEVEL = logging.INFO]: [logging.debug] records are discarded by the
      logging module and are left out; [info], [warning], [error] and
      [print] are recorded. *)

From Stdlib Require Import ZArith String Ascii List Lia.
From stdpp Require Import base strings list gmap.

Local Open Scope string_scope.
Local Open Scope Z_scope.
Local Open Scope list_scope.

(** ** Text outside ASCII *)

(** What Python computes from its Unicode tables on text that is not ASCII:
    [s.upper()], [repr(s)] and the three [re.sub] of [rewrite_table_ddl]
    (arguments in the order of that function).  The model does not compute
    these; every statement holds whatever they are. *)
Record Unicode : Type := mkUnicode {
  wide_upper : string → string;
  wide_repr : string → string;
  wide_rewrite : string → string → string → string → string → string
}.

(** [s.isascii()] *)
Definition is_ascii_char (c : ascii) : bool := (nat_of_ascii c <? 128)%nat.
Fixpoint is_ascii (s : string) : bool :=
  match s with
  | EmptyString => true
  | String c s' => is_ascii_char c && is_ascii s'
  end.


(** ** Python strings *)

Module PyStr.

Definition dquote : ascii := "034"%char.
Definition squote : ascii := "039"%char.
Definition backslash : ascii := "092"%char.
Definition newline : ascii := "010"%char.

Definition DQ : string := String dquote EmptyString.
Definition NL : string := String newline EmptyString.
Definition BS : string := String backslash EmptyString.

Definition is_upper (c : ascii) : bool :=
  let n := nat_of_ascii c in (65 <=? n)%nat && (n <=? 90)%nat.
Definition is_lower (c : ascii) : bool :=
  let n := nat_of_ascii c in (97 <=? n)%nat && (n <=? 122)%nat.
Definition is_digit (c : ascii) : bool :=
  let n := nat_of_ascii c in (48 <=? n)%nat && (n <=? 57)%nat.

Definition lower_char (c : ascii) : ascii :=
  if is_upper c then ascii_of_nat (nat_of_ascii c + 32) else c.
Definition upper_char (c : ascii) : ascii :=
  if is_lower c then ascii_of_nat (nat_of_ascii c - 32) else c.

(** [s.upper()] on ASCII text *)
Fixpoint upper_ascii (s : string) : string :=
  match s with
  | EmptyString => EmptyString
  | String c s' => String (upper_char c) (upper_ascii s')
  end.

(** [s.upper()] *)
Definition upper (u : Unicode) (s : string) : string :=
  if is_ascii s then upper_ascii s else wide_upper u s.

(** [s.lower()], for a comparison with an ASCII constant *)
Fixpoint lower (s : string) : string :=
  match s with
  | EmptyString => EmptyString
  | String c s' => String (lower_char c) (lower s')
  end.

(** [s.startswith(p)] *)
Definition startswith (s p : string) : bool := String.prefix p s.

(** [sub in s] *)
Fixpoint contains (sub s : string) : bool :=
  String.prefix sub s ||
  match s with
  | EmptyString => false
  | String _ s' => contains sub s'
  end.

(** [s.strip(c)] for a one-character set *)
Fixpoint lstrip (c : ascii) (s : string) : string :=
  match s with
  | String d s' => if Ascii.eqb c d then lstrip c s' else s
  | EmptyString => EmptyString
  end.
Fixpoint rstrip (c : ascii) (s : string) : string :=
  match s with
  | EmptyString => EmptyString
  | String d s' =>
      match rstrip c s' with
      | EmptyString => if Ascii.eqb c d then EmptyString else String d EmptyString
      | r => String d r
      end
  end.
Definition strip (c : ascii) (s : string) : string := rstrip c (lstrip c s).

(** [sep.join(l)] *)
Fixpoint join (sep : string) (l : list string) : string :=
  match l with
  | [] => EmptyString
  | [x] => x
  | x :: l' => x +:+ sep +:+ join sep l'
  end.

(** [len(s)]: code points of the UTF-8 text, i.e. bytes that are not
    continuation bytes. *)
Fixpoint len (s : string) : nat :=
  match s with
  | EmptyString => 0%nat
  | String c s' =>
      let n := nat_of_ascii c in
      ((if (128 <=? n)%nat && (n <? 192)%nat then 0 else 1) + len s')%nat
  end.

Fixpoint spaces (n : nat) : string :=
  match n with O => EmptyString | S k => String " "%char (spaces k) end.

(** Left and right alignment in a field of width [w] (format specs [<w], [>w]). *)
Definition ljust (w : nat) (s : string) : string := s +:+ spaces (w - len s).
Definition rjust (w : nat) (s : string) : string := spaces (w - len s) +:+ s.

(** [s * n] *)
Fixpoint repeat_str (s : string) (n : nat) : string :=
  match n with O => EmptyString | S k => s +:+ repeat_str s k end.

(** Decimal digits. *)
Definition digit_char (d : Z) : ascii := ascii_of_nat (48 + Z.to_nat d).

Fixpoint dec_digits (fuel : nat) (n : Z) (acc : string) : string :=
  match fuel with
  | O => acc
  | S k =>
      let acc' := String (digit_char (n mod 10)) acc in
      if n / 10 =? 0 then acc' else dec_digits k (n / 10) acc'
  end.

(** [str(n)] for a non-negative [n]: [n < 2 ^ fuel] guarantees enough fuel. *)
Definition nat_digits (n : Z) : string :=
  dec_digits (S (Z.to_nat (Z.log2 n))) n EmptyString.

(** [str(n)] *)
Definition str_int (n : Z) : string :=
  if n <? 0 then String "-"%char (nat_digits (- n)) else nat_digits n.

(** Insert [,] every three digits, counting from the right. *)
Fixpoint group3 (s : string) : string :=
  match s with
  | EmptyString => EmptyString
  | String c s' =>
      let r := group3 s' in
      if ((0 <? String.length s')%nat && (String.length s' mod 3 =? 0)%nat)%bool
      then String c (String ","%char r) else String c r
  end.

(** The format spec [,]: decimal with thousands separators. *)
Definition format_commas (n : Z) : string :=
  if n <? 0 then String "-"%char (group3 (nat_digits (- n)))
  else group3 (nat_digits n).

(** [repr(s)] on ASCII text: single quotes unless the text holds a single
    quote and no double quote; backslash, the chosen quote and control
    characters are escaped. *)
Definition hex_char (d : nat) : ascii :=
  if (d <? 10)%nat then ascii_of_nat (48 + d) else ascii_of_nat (87 + d).

Definition repr_char (q : ascii) (c : ascii) : string :=
  let n := nat_of_ascii c in
  if Ascii.eqb c backslash then String backslash (String backslash EmptyString)
  else if Ascii.eqb c q then String backslash (String q EmptyString)
  else if (n =? 10)%nat then String backslash "n"
  else if (n =? 13)%nat then String backslash "r"
  else if (n =? 9)%nat then String backslash "t"
  else if (n <? 32)%nat || (n =? 127)%nat
       then String backslash
              (String "x"%char
                 (String (hex_char (n / 16)) (String (hex_char (n mod 16)) EmptyString)))
  else String c EmptyString.

Fixpoint repr_body (q : ascii) (s : string) : string :=
  match s with
  | EmptyString => EmptyString
  | String c s' => repr_char q c +:+ repr_body q s'
  end.

Definition repr_ascii (s : string) : string :=
  let has_sq := contains (String squote EmptyString) s in
  let has_dq := contains DQ s in
  let q := if has_sq && negb has_dq then dquote else squote in
  String q (repr_body q s) +:+ String q EmptyString.

(** [repr(s)] *)
Definition repr_str (u : Unicode) (s : string) : string :=
  if is_ascii s then repr_ascii s else wide_repr u s.

(** [repr(l)] for a list whose items are already rendered *)
Definition repr_list (items : list string) : string :=
  "[" +:+ join ", " items +:+ "]".

End PyStr.

(** ** The regular-expression passes of [rewrite_table_ddl], on ASCII text

    [re.sub] scans left to right; at each position it tries the pattern, and
    on a match emits the replacement and resumes right after the matched
    text.  None of the three patterns matches the empty string.  A matcher
    receives the character before the position (for [\b]) and the remaining
    text, and returns the replacement and the text after the match.

    Everything in this module is the behaviour of [re] on ASCII subjects and
    ASCII patterns, where a character is a byte, [\w] is a letter, a digit or
    the underscore, [\s] is one of nine control characters or the space, and
    [re.IGNORECASE] identifies the two cases of a letter. *)

Module Regex.
Import PyStr.

Definition matcher : Type := option ascii → string → option (string * string).

Fixpoint re_sub_from (m : matcher) (prev : option ascii) (skip : nat) (s : string)
  : string :=
  match s with
  | EmptyString => EmptyString
  | String c s' =>
      match skip with
      | S k => re_sub_from m (Some c) k s'
      | O =>
          match m prev s with
          | Some (repl, rest) =>
              repl +:+ re_sub_from m (Some c) (String.length s' - String.length rest) s'
          | None => String c (re_sub_from m (Some c) O s')
          end
      end
  end.

(** [re.sub(pattern, repl, s)] *)
Definition re_sub (m : matcher) (s : string) : string := re_sub_from m None O s.

(** [re.IGNORECASE] on two ASCII characters *)
Definition eqb_ci_ascii (a b : ascii) : bool := Ascii.eqb (lower_char a) (lower_char b).

(** A literal, compared case-insensitively, at the head of [s]. *)
Fixpoint lit_ci (lit s : string) : option string :=
  match lit with
  | EmptyString => Some s
  | String a lit' =>
      match s with
      | String b s' => if eqb_ci_ascii a b then lit_ci lit' s' else None
      | EmptyString => None
      end
  end.

(** Longest head of [s] free of [q], and what follows. *)
Fixpoint span_not (q : ascii) (s : string) : string * string :=
  match s with
  | EmptyString => (EmptyString, EmptyString)
  | String c s' =>
      if Ascii.eqb c q then (EmptyString, s)
      else let '(a, b) := span_not q s' in (String c a, b)
  end.

(** The text up to and including the quote that opens the object name of a
    double-quoted three-part reference. *)
Definition qualifier (db schema : string) : string :=
  DQ +:+ db +:+ DQ +:+ "." +:+ DQ +:+ schema +:+ DQ +:+ "." +:+ DQ.

(** A double-quoted three-part reference: database, schema, object. *)
Definition qualified (db schema obj : string) : string :=
  qualifier db schema +:+ obj +:+ DQ.

(** First pattern: the quoted source database and schema, each followed by a
    dot, then a quoted object name, a non-empty run of characters other than
    the double quote (group 1).  The literals come from [re.escape], so they
    match themselves.  The replacement is the same reference under the target
    database and schema, group 1 kept. *)
Definition match_qualified (src_db src_schema tgt_db tgt_schema : string) : matcher :=
  λ _ s,
    match lit_ci (qualifier src_db src_schema) s with
    | None => None
    | Some r1 =>
        match span_not dquote r1 with
        | (String c obj, String _ r2) =>
            Some (qualified tgt_db tgt_schema (String c obj), r2)
        | _ => None
        end
    end.

(** [\w] on an ASCII character *)
Definition is_word_ascii (c : ascii) : bool :=
  is_upper c || is_lower c || is_digit c || Ascii.eqb c "_"%char.

(** [\s] on an ASCII character *)
Definition is_space_ascii (c : ascii) : bool :=
  let n := nat_of_ascii c in
  ((9 <=? n)%nat && (n <=? 13)%nat) || ((28 <=? n)%nat && (n <=? 32)%nat).

(** [\bCREATE TABLE\b] with the replacement ['CREATE OR REPLACE TABLE'] *)
Definition match_create_table : matcher :=
  λ prev s,
    if match prev with Some p => is_word_ascii p | None => false end then None
    else
      match lit_ci "CREATE TABLE" s with
      | None => None
      | Some r =>
          match r with
          | String n _ => if is_word_ascii n then None else Some ("CREATE OR REPLACE TABLE", r)
          | EmptyString => Some ("CREATE OR REPLACE TABLE", r)
          end
      end.

Fixpoint skip_spaces (s : string) : string :=
  match s with
  | String c s' => if is_space_ascii c then skip_spaces s' else s
  | EmptyString => EmptyString
  end.

(** Text after the first single quote, if there is one ([.*?'] under DOTALL). *)
Fixpoint after_squote (s : string) : option string :=
  match s with
  | EmptyString => None
  | String c s' => if Ascii.eqb c squote then Some s' else after_squote s'
  end.

(** [COMMENT\s*=\s*'.*?'] with the replacement [''] *)
Definition match_comment : matcher :=
  λ _ s,
    match lit_ci "COMMENT" s with
    | None => None
    | Some r1 =>
        match skip_spaces r1 with
        | String e r2 =>
            if Ascii.eqb e "="%char then
              match skip_spaces r2 with
              | String q r3 =>
                  if Ascii.eqb q squote then
                    match after_squote r3 with
                    | Some r4 => Some (EmptyString, r4)
                    | None => None
                    end
                  else None
              | EmptyString => None
              end
            else None
        | EmptyString => None
        end
    end.

(** Two texts equal up to the case of ASCII letters. *)
Fixpoint ci_equal (a b : string) : bool :=
  match a, b with
  | EmptyString, EmptyString => true
  | String x a', String y b' => eqb_ci_ascii y x && ci_equal a' b'
  | _, _ => false
  end.

(** The character before the position reached after reading [u]. *)
Fixpoint last_of (prev : option ascii) (u : string) : option ascii :=
  match u with
  | EmptyString => prev
  | String c u' => last_of (Some c) u'
  end.


(** Every character of [s] satisfies [p]. *)
Fixpoint all_chars (p : ascii → bool) (s : string) : bool :=
  match s with
  | EmptyString => true
  | String c s' => p c && all_chars p s'
  end.

End Regex.

(** ** [rewrite_table_ddl] *)

(** The three [re.sub] calls on ASCII text. *)
Definition rewrite_ascii (ddl src_db src_schema tgt_db tgt_schema : string) : string :=
  let ddl2 := Regex.re_sub (Regex.match_qualified src_db src_schema tgt_db tgt_schema) ddl in
  let ddl2 := Regex.re_sub Regex.match_create_table ddl2 in
  let ddl2 := Regex.re_sub Regex.match_comment ddl2 in
  ddl2.

Definition rewrite_table_ddl (u : Unicode) (ddl src_db src_schema tgt_db tgt_schema : string)
  : string :=
  if is_ascii ddl && is_ascii src_db && is_ascii src_schema
     && is_ascii tgt_db && is_ascii tgt_schema
  then rewrite_ascii ddl src_db src_schema tgt_db tgt_schema
  else wide_rewrite u ddl src_db src_schema tgt_db tgt_schema.

(** ** Values, requests and the log of a run *)

(** Cells of a result row, as Python values. *)
Inductive PyVal : Type :=
| PInt (n : Z)
| PStr (s : string)
| PNone.

(** [str(v)], as an f-string interpolates it *)
Definition py_str (v : PyVal) : string :=
  match v with
  | PInt n => PyStr.str_int n
  | PStr s => s
  | PNone => "None"
  end.

(** [repr(v)] *)
Definition py_repr (u : Unicode) (v : PyVal) : string :=
  match v with
  | PInt n => PyStr.str_int n
  | PStr s => PyStr.repr_str u s
  | PNone => "None"
  end.

(** [a == b] *)
Definition py_eqb (a b : PyVal) : bool :=
  match a, b with
  | PInt x, PInt y => x =? y
  | PStr x, PStr y => String.eqb x y
  | PNone, PNone => true
  | _, _ => false
  end.

(** [bool(v)] *)
Definition py_truthy (v : PyVal) : bool :=
  match v with
  | PInt n => negb (n =? 0)
  | PStr s => negb (String.eqb s EmptyString)
  | PNone => false
  end.

(** What [sess.sql(q).collect()] returns: rows sharing one list of field
    names ([Row._fields]). *)
Record ResultSet : Type := mkResultSet {
  rs_fields : list string;
  rs_rows : list (list PyVal)
}.

(** [datetime.utcnow()] *)
Record DateTime : Type := mkDateTime {
  dt_year : Z; dt_month : Z; dt_day : Z;
  dt_hour : Z; dt_minute : Z; dt_second : Z;
  dt_microsecond : Z
}.

(** Connection parameters ([SOURCE], [TARGET]). *)
Record ConnCfg : Type := mkConnCfg {
  cfg_account : string;
  cfg_user : string;
  cfg_role : string;
  cfg_warehouse : option string;
  cfg_authenticator : string;
  cfg_private_key_file : string
}.

(** The two sessions of a run. *)
Inductive Session : Type := Src | Tgt.

Inductive exn : Type := Exception (msg : string).

Definition str_exn (e : exn) : string := match e with Exception m => m end.

Inductive Result (A : Type) : Type :=
| Ok (a : A)
| Raise (e : exn).
Arguments Ok {A} a.
Arguments Raise {A} e.

(** Calls that leave the process, indexed by what they return. *)
Inductive Request : Type → Type :=
| Connect (s : Session) (cfg : ConnCfg) : Request unit
| Sql (s : Session) (q : string) : Request ResultSet
| UtcNow : Request DateTime
| Mkdtemp (prefix : string) : Request string
| Makedirs (path : string) : Request unit
| Glob (pattern : string) : Request (list string)
| Remove (path : string) : Request unit
| Listdir (path : string) : Request (list string)
| Getsize (path : string) : Request Z
| PathExists (path : string) : Request bool
| Rmtree (path : string) : Request unit.

Inductive Level : Type := LvlInfo | LvlWarning | LvlError.

Inductive Event : Type :=
| ECall {T : Type} (rq : Request T) (r : Result T)
| ELog (lvl : Level) (msg : string)
| EPrint (msg : string).

(** The outside world: it answers a request knowing everything that happened
    before. *)
Definition Env : Type := ∀ T : Type, list Event → Request T → Result T.

(** ** The monad of the script: log threading and exceptions *)

Definition M (A : Type) : Type := Env → list Event → Result A * list Event.

Definition run {A} (m : M A) (env : Env) (tr : list Event) : Result A * list Event :=
  m env tr.

#[global] Instance M_ret : MRet M := λ A a _ tr, (Ok a, tr).

#[global] Instance M_bind : MBind M := λ A B f m env tr,
  match m env tr with
  | (Ok a, tr') => f a env tr'
  | (Raise e, tr') => (Raise e, tr')
  end.

(** [raise e] *)
Definition raise {A} (e : exn) : M A := λ _ tr, (Raise e, tr).

(** [try: body  except Exception as e: handler(e)] *)
Definition try_except {A} (body : M A) (handler : exn → M A) : M A := λ env tr,
  match body env tr with
  | (Ok a, tr') => (Ok a, tr')
  | (Raise e, tr') => handler e env tr'
  end.

Definition call {T} (rq : Request T) : M T := λ env tr,
  let r := env T tr rq in (r, tr ++ [ECall rq r]).

Definition emit (e : Event) : M unit := λ _ tr, (Ok (), tr ++ [e]).

Definition print (msg : string) : M unit := emit (EPrint msg).
Definition logging_info (msg : string) : M unit := emit (ELog LvlInfo msg).
Definition logging_warning (msg : string) : M unit := emit (ELog LvlWarning msg).
Definition logging_error (msg : string) : M unit := emit (ELog LvlError msg).

(** [for x in xs: body(x)] *)
Fixpoint for_each {A} (xs : list A) (body : A → M unit) : M unit :=
  match xs with
  | [] => mret ()
  | x :: xs' => body x ;; for_each xs' body
  end.

(** [sess.sql(q).collect()] *)
Definition sql (s : Session) (q : string) : M (list (list PyVal)) :=
  rs ← call (Sql s q); mret (rs_rows rs).

(** [l[i]] on a list and [r[i]] on a row *)
Definition list_item {A} (l : list A) (i : nat) : M A :=
  match l !! i with
  | Some a => mret a
  | None => raise (Exception "list index out of range")
  end.
Definition row_item (r : list PyVal) (i : nat) : M PyVal :=
  match r !! i with
  | Some a => mret a
  | None => raise (Exception "tuple index out of range")
  end.

(** [[r[0] for r in rows]] *)
Fixpoint first_cells (rows : list (list PyVal)) : M (list PyVal) :=
  match rows with
  | [] => mret []
  | r :: rows' => v ← row_item r 0; vs ← first_cells rows'; mret (v :: vs)
  end.

(** Method calls on a value that must be a [str]. *)
Definition str_method {A} (name : string) (f : string → A) (v : PyVal) : M A :=
  match v with
  | PStr s => mret (f s)
  | PInt _ => raise (Exception ("'int' object has no attribute '" +:+ name +:+ "'"))
  | PNone => raise (Exception ("'NoneType' object has no attribute '" +:+ name +:+ "'"))
  end.

(** ** Timestamps *)

Definition two_digits (n : Z) : string :=
  String (PyStr.digit_char (n / 10 mod 10))
    (String (PyStr.digit_char (n mod 10)) EmptyString).
Definition four_digits (n : Z) : string :=
  String (PyStr.digit_char (n / 1000 mod 10))
    (String (PyStr.digit_char (n / 100 mod 10)) (two_digits n)).

(** [d.strftime('%Y%m%dT%H%M%SZ')] *)
Definition strftime_compact (d : DateTime) : string :=
  four_digits (dt_year d) +:+ two_digits (dt_month d) +:+ two_digits (dt_day d) +:+ "T"
  +:+ two_digits (dt_hour d) +:+ two_digits (dt_minute d) +:+ two_digits (dt_second d) +:+ "Z".

(** [d.strftime('%Y-%m-%d %H:%M:%S')] *)
Definition strftime_human (d : DateTime) : string :=
  four_digits (dt_year d) +:+ "-" +:+ two_digits (dt_month d) +:+ "-" +:+ two_digits (dt_day d)
  +:+ " " +:+ two_digits (dt_hour d) +:+ ":" +:+ two_digits (dt_minute d) +:+ ":"
  +:+ two_digits (dt_second d).

(** [os.path.join(a, b)] *)
Definition path_join (a b : string) : string :=
  if PyStr.startswith b "/" then b
  else match a with
       | EmptyString => b
       | _ => if String.eqb (PyStr.rstrip "/"%char a) a then a +:+ "/" +:+ b else a +:+ b
       end.

(** ** Connection gate and catalog inspector *)

Import PyStr.

(** A name between double quotes, as the f-strings of the script write it. *)
Definition quoted (name : string) : string := DQ +:+ name +:+ DQ.

(** The three-part name of a table, each part quoted. *)
Definition fq_name (db schema table : string) : string :=
  quoted db +:+ "." +:+ quoted schema +:+ "." +:+ quoted table.

Definition _fatal {A} (msg : string) : M A :=
  logging_error msg ;; raise (Exception msg).

Definition _warehouse_exists (sess : Session) (name : string) : M bool :=
  rows ← sql sess ("SHOW WAREHOUSES LIKE '" +:+ name +:+ "'");
  mret (0 <? length rows)%nat.

Definition _create_warehouse (sess : Session) (name : string) : M unit :=
  sql sess (NL +:+ "        CREATE WAREHOUSE IF NOT EXISTS " +:+ quoted name +:+ NL
            +:+ "        WAREHOUSE_SIZE='XSMALL'" +:+ NL
            +:+ "        AUTO_SUSPEND=60" +:+ NL
            +:+ "        AUTO_RESUME=TRUE" +:+ NL
            +:+ "        INITIALLY_SUSPENDED=TRUE" +:+ NL
            +:+ "        ") ;;
  sql sess ("GRANT USAGE ON WAREHOUSE " +:+ quoted name +:+ " TO ROLE ACCOUNTADMIN") ;;
  mret ().

Definition connect_and_enforce (u : Unicode) (sess : Session) (cfg : ConnCfg)
    (expect_user expect_role : string) : M unit :=
  logging_info ("Connecting to account=" +:+ cfg_account cfg +:+ " as user=" +:+ cfg_user cfg) ;;
  call (Connect sess cfg) ;;
  try_except
    (sql sess ("USE ROLE " +:+ quoted expect_role) ;; mret ())
    (λ e, _fatal ("Could not USE ROLE " +:+ quoted expect_role +:+ ". Ensure user "
                  +:+ quoted (cfg_user cfg) +:+ " is granted it. Error: " +:+ str_exn e)) ;;
  rows ← sql sess "SELECT CURRENT_USER(), CURRENT_ROLE(), CURRENT_VERSION()";
  who ← list_item rows 0;
  who0 ← row_item who 0;
  (if negb (String.eqb (upper u (py_str who0)) (upper u expect_user))
   then _fatal ("CURRENT_USER()=" +:+ quoted (py_str who0) +:+ ", expected "
                +:+ quoted expect_user +:+ ". Check connector config.")
   else mret ()) ;;
  who1 ← row_item who 1;
  (if negb (String.eqb (upper u (py_str who1)) (upper u expect_role))
   then _fatal ("CURRENT_ROLE()=" +:+ quoted (py_str who1) +:+ ", expected "
                +:+ quoted expect_role +:+ ".")
   else mret ()) ;;
  match cfg_warehouse cfg with
  | Some (String c w) =>
      let wh := String c w in
      ex ← _warehouse_exists sess wh;
      (if negb ex
       then logging_warning ("Warehouse " +:+ quoted wh +:+ " not found. Creating XSMALL …") ;;
            _create_warehouse sess wh
       else mret ()) ;;
      sql sess ("USE WAREHOUSE " +:+ quoted wh) ;;
      logging_info ("Using warehouse " +:+ quoted wh)
  | _ => mret ()
  end.

(** [ensure_db_schema(sess, db, schema)]; [schema] is always given by [main]. *)
Definition ensure_db_schema (u : Unicode) (sess : Session) (db : string)
    (schema : option string) : M unit :=
  try_except
    (sql sess ("CREATE DATABASE IF NOT EXISTS " +:+ quoted db) ;;
     sql sess ("USE DATABASE " +:+ quoted db) ;;
     logging_info ("Using database " +:+ quoted db))
    (λ e, _fatal ("Failed to CREATE DATABASE " +:+ quoted db
                  +:+ ". Requires CREATE DATABASE on ACCOUNT. Error: " +:+ str_exn e)) ;;
  match schema with
  | Some (String c sc) =>
      let schema := String c sc in
      if negb (String.eqb (upper u schema) "INFORMATION_SCHEMA") then
        try_except
          (sql sess ("CREATE SCHEMA IF NOT EXISTS " +:+ quoted db +:+ "." +:+ quoted schema) ;;
           sql sess ("USE SCHEMA " +:+ quoted db +:+ "." +:+ quoted schema) ;;
           logging_info ("Using schema " +:+ quoted db +:+ "." +:+ quoted schema))
          (λ e, _fatal ("Failed to CREATE SCHEMA " +:+ quoted db +:+ "." +:+ quoted schema
                        +:+ ". Error: " +:+ str_exn e))
      else mret ()
  | _ => mret ()
  end.

Definition list_tables_query (db schema : string) : string :=
  NL +:+ "    SELECT TABLE_NAME" +:+ NL
  +:+ "    FROM " +:+ quoted db +:+ ".INFORMATION_SCHEMA.TABLES" +:+ NL
  +:+ "    WHERE TABLE_SCHEMA = '" +:+ schema +:+ "' AND TABLE_TYPE = 'BASE TABLE';" +:+ NL
  +:+ "    ".

Definition list_tables (sess : Session) (db schema : string) : M (list PyVal) :=
  rows ← sql sess (list_tables_query db schema);
  first_cells rows.

Definition get_ddl_query (db schema table : string) : string :=
  "SELECT GET_DDL('TABLE', '" +:+ fq_name db schema table +:+ "')".

Definition get_table_ddl (sess : Session) (db schema table : string) : M PyVal :=
  rows ← sql sess (get_ddl_query db schema table);
  r ← list_item rows 0;
  row_item r 0.

Definition columns_query (db schema table : string) : string :=
  NL +:+ "    SELECT COLUMN_NAME" +:+ NL
  +:+ "    FROM " +:+ quoted db +:+ ".INFORMATION_SCHEMA.COLUMNS" +:+ NL
  +:+ "    WHERE TABLE_SCHEMA = '" +:+ schema +:+ "' AND TABLE_NAME = '" +:+ table +:+ "'" +:+ NL
  +:+ "    ORDER BY ORDINAL_POSITION;" +:+ NL
  +:+ "    ".

Definition get_table_columns (sess : Session) (db schema table : string) : M (list PyVal) :=
  rows ← sql sess (columns_query db schema table);
  first_cells rows.

Definition rowcount_query (db schema table : string) : string :=
  "SELECT COUNT(*) FROM " +:+ fq_name db schema table.

Definition rowcount (sess : Session) (db schema table : string) : M PyVal :=
  rows ← sql sess (rowcount_query db schema table);
  r ← list_item rows 0;
  row_item r 0.

(** ** Grants and ownership *)

(** Position of the first item satisfying [p]. *)
Fixpoint find_index {A} (p : A → bool) (l : list A) : option nat :=
  match l with
  | [] => None
  | x :: l' => if p x then Some O else S <$> find_index p l'
  end.

Definition show_tables_query (db schema table : string) : string :=
  "SHOW TABLES LIKE '" +:+ table +:+ "' IN SCHEMA " +:+ quoted db +:+ "." +:+ quoted schema.

Definition show_table_owner (sess : Session) (db schema table : string) : M (option PyVal) :=
  rs ← call (Sql sess (show_tables_query db schema table));
  match rs_rows rs with
  | [] => mret None
  | row0 :: _ =>
      match find_index (λ c, String.eqb (lower c) "owner") (rs_fields rs) with
      | Some owner_idx => v ← row_item row0 owner_idx; mret (Some v)
      | None => mret None
      end
  end.

(** One captured grant: the dict with keys [role] and [privilege]. *)
Record GrantRecord : Type := mkGrant { g_role : PyVal; g_privilege : PyVal }.

(** [cols.index(name)], then [r[...]] *)
Definition field_of (u : Unicode) (cols : list string) (r : list PyVal) (name : string)
  : M PyVal :=
  match find_index (String.eqb name) cols with
  | Some i => row_item r i
  | None => raise (Exception (repr_str u name +:+ " is not in list"))
  end.

Fixpoint collect_role_grants (u : Unicode) (cols : list string) (schema table : string)
    (rs : list (list PyVal)) (grants : list GrantRecord) : M (list GrantRecord) :=
  match rs with
  | [] => mret grants
  | r :: rs' =>
      grants' ← try_except
        (granted_to ← field_of u cols r "granted_to";
         grantee ← field_of u cols r "grantee_name";
         privilege ← field_of u cols r "privilege";
         if py_eqb granted_to (PStr "ROLE")
         then mret (grants ++ [mkGrant grantee privilege])
         else logging_warning ("Skipping non-ROLE grant on " +:+ schema +:+ "." +:+ table
                               +:+ ": " +:+ py_str granted_to +:+ " " +:+ py_str grantee
                               +:+ " " +:+ py_str privilege) ;;
              mret grants)
        (λ _, mret grants);
      collect_role_grants u cols schema table rs' grants'
  end.

Definition show_grants_query (db schema table : string) : string :=
  "SHOW GRANTS ON TABLE " +:+ fq_name db schema table.

Definition fetch_role_grants_on_table (u : Unicode) (sess : Session)
    (db schema table : string) : M (list GrantRecord) :=
  rs ← call (Sql sess (show_grants_query db schema table));
  let cols := match rs_rows rs with [] => [] | _ => lower <$> rs_fields rs end in
  collect_role_grants u cols schema table (rs_rows rs) [].


Definition create_role_stmt (role : string) : string :=
  "CREATE ROLE IF NOT EXISTS " +:+ quoted role.

Definition ensure_role (sess : Session) (role : string) : M unit :=
  sql sess (create_role_stmt role) ;; mret ().

Definition grant_stmt (db schema table priv role : string) : string :=
  "GRANT " +:+ priv +:+ " ON TABLE " +:+ fq_name db schema table +:+ " TO ROLE " +:+ quoted role.

(** The two tests the handlers make on the text of an exception. *)
Definition grant_conflict (e : exn) : bool :=
  contains "already exists" (lower (str_exn e))
  || contains "dependent grant" (lower (str_exn e)).
Definition already_owner (e : exn) : bool :=
  contains "already owns" (lower (str_exn e)).

Definition apply_role_grants (sess : Session) (db schema table : string)
    (grants : list GrantRecord) : M unit :=
  for_each grants (λ g,
    let role := py_str (g_role g) in
    let priv := py_str (g_privilege g) in
    ensure_role sess role ;;
    try_except
      (sql sess (grant_stmt db schema table priv role) ;; mret ())
      (λ e,
         if grant_conflict e
         then mret ()
         else logging_warning ("Failed to grant " +:+ priv +:+ " on " +:+ schema +:+ "."
                               +:+ table +:+ " to " +:+ role +:+ ": " +:+ str_exn e))).

Definition ownership_stmt (db schema table owner_role : string) : string :=
  "GRANT OWNERSHIP ON TABLE " +:+ fq_name db schema table +:+ " TO ROLE "
  +:+ quoted owner_role +:+ " REVOKE CURRENT GRANTS".

Definition transfer_ownership (sess : Session) (db schema table owner_role : string) : M unit :=
  ensure_role sess owner_role ;;
  try_except
    (sql sess (ownership_stmt db schema table owner_role) ;; mret ())
    (λ e,
       if already_owner e
       then mret ()
       else logging_warning ("Failed to transfer ownership of " +:+ schema +:+ "." +:+ table
                             +:+ " to " +:+ owner_role +:+ ": " +:+ str_exn e)).

(** ** Outcomes *)

Inductive Status : Type := OK | OK_EMPTY | NO_COLUMNS | ROWCOUNT_MISMATCH | ERROR.

Definition status_str (s : Status) : string :=
  match s with
  | OK => "OK"
  | OK_EMPTY => "OK_EMPTY"
  | NO_COLUMNS => "NO_COLUMNS"
  | ROWCOUNT_MISMATCH => "ROWCOUNT_MISMATCH"
  | ERROR => "ERROR"
  end.

(** One entry of [summary]: the tuple [(table, s_cnt, t_cnt, status)]. *)
Record MigrationOutcome : Type := mkOutcome {
  o_table : string;
  o_src_cnt : PyVal;
  o_tgt_cnt : PyVal;
  o_status : Status
}.

(** The entry recorded by the [except] clause of the loop. *)
Definition error_outcome (table : string) : MigrationOutcome :=
  mkOutcome table (PInt (-1)) (PInt (-1)) ERROR.

(** Formatting a value with the spec [,]: only numbers accept it. *)
Definition format_commas_val (v : PyVal) : M string :=
  match v with
  | PInt n => mret (format_commas n)
  | PStr _ => raise (Exception "Cannot specify ',' with 's'.")
  | PNone => raise (Exception "unsupported format string passed to NoneType.__format__")
  end.

(** [a != b] on lists of values *)
Fixpoint py_list_eqb (a b : list PyVal) : bool :=
  match a, b with
  | [], [] => true
  | x :: a', y :: b' => py_eqb x y && py_list_eqb a' b'
  | _, _ => false
  end.

Definition str_nat (n : nat) : string := str_int (Z.of_nat n).

(** What the libraries decide: the text operations outside ASCII, and two
    renderings that only reach log and report text, the [repr] of a list of
    Snowpark rows and the [str] of a [timedelta] cut at its dot. *)
Record PyLib : Type := mkPyLib {
  unicode : Unicode;
  repr_rows : ResultSet → string;
  duration_str : DateTime → DateTime → string
}.

(** ** User-stage-based migration *)

(** The arguments of [migrate_tables_with_user_stage] other than the table
    list; the nested helpers and every step of the loop body see them. *)
Record CallArgs : Type := mkCallArgs {
  arg_src_sess : Session;
  arg_tgt_sess : Session;
  arg_source_db : string;
  arg_source_schema : string;
  arg_target_db : string;
  arg_target_schema : string;
  arg_base_tmp_dir : string
}.

Section MigrateTables.

Variable lib : PyLib.
Variable args : CallArgs.

Local Abbreviation src_sess := (arg_src_sess args).
Local Abbreviation tgt_sess := (arg_tgt_sess args).
Local Abbreviation source_db := (arg_source_db args).
Local Abbreviation source_schema := (arg_source_schema args).
Local Abbreviation target_db := (arg_target_db args).
Local Abbreviation target_schema := (arg_target_schema args).
Local Abbreviation base_tmp_dir := (arg_base_tmp_dir args).

Definition FILE_FORMAT : string :=
  "TYPE=CSV "
  +:+ "FIELD_DELIMITER=',' "
  +:+ "RECORD_DELIMITER='" +:+ BS +:+ "n' "
  +:+ "PARSE_HEADER=TRUE "
  +:+ "FIELD_OPTIONALLY_ENCLOSED_BY='" +:+ DQ +:+ "' "
  +:+ "NULL_IF=('NULL', 'null', '') "
  +:+ "EMPTY_FIELD_AS_NULL=TRUE "
  +:+ "ESCAPE_UNENCLOSED_FIELD='" +:+ BS +:+ BS +:+ "'".

(** The loop of [_list_user_stage] over its patterns. *)
Fixpoint list_patterns (sess : Session) (sp : string) (patterns : list string)
  : M (list PyVal) :=
  match patterns with
  | [] =>
      logging_warning ("Could not find any files for subpath: " +:+ sp) ;;
      mret []
  | pattern :: rest =>
      found ← try_except
        (rows ← sql sess ("LIST " +:+ pattern);
         match rows with
         | [] => mret None
         | _ => names ← first_cells rows; mret (Some names)
         end)
        (λ _, mret None);
      match found with
      | Some names => mret names
      | None => list_patterns sess sp rest
      end
  end.

Definition _list_user_stage (sess : Session) (subpath : string) : M (list PyVal) :=
  let sp := strip "/"%char subpath in
  let patterns_to_try :=
    [ "@~/" +:+ sp +:+ "*"; "@~/" +:+ sp +:+ "/"; "@~/" +:+ sp ] in
  list_patterns sess sp patterns_to_try.

Definition _clean_stage_path (sess : Session) (subpath : string) : M unit :=
  try_except
    (sql sess ("REMOVE @~/" +:+ subpath +:+ "/") ;; mret ())
    (λ _, mret ()).

Definition src_stage_subpath (timestamp table : string) : string :=
  "migrate_export_" +:+ timestamp +:+ "_" +:+ table.
Definition tgt_stage_subpath (timestamp table : string) : string :=
  "migrate_import_" +:+ timestamp +:+ "_" +:+ table.
Definition local_dir_of (timestamp table : string) : string :=
  path_join base_tmp_dir ("table_" +:+ table +:+ "_" +:+ timestamp).

(** Step 0: source row count and column list. *)
Definition step0_analyze (n_tables i : nat) (table : string) : M (PyVal * list PyVal) :=
  print (NL +:+ "📋 [" +:+ str_nat i +:+ "/" +:+ str_nat n_tables +:+ "] Migrating "
         +:+ table +:+ "...") ;;
  print "   🔍 Analyzing source table structure..." ;;
  src_cnt_before ← rowcount src_sess source_db source_schema table;
  src_columns ← get_table_columns src_sess source_db source_schema table;
  mret (src_cnt_before, src_columns).

(** The line printed once the column list is known to be non-empty. *)
Definition report_source_stats (src_cnt_before : PyVal) (src_columns : list PyVal) : M unit :=
  cnt_txt ← format_commas_val src_cnt_before;
  print ("   📊 Source: " +:+ cnt_txt +:+ " rows, " +:+ str_nat (length src_columns)
         +:+ " columns").

(** Step 1: create or replace the target table from the source DDL, then
    compare the column lists. *)
Definition step1_create_target (table : string) (src_columns : list PyVal) : M unit :=
  print "   🏗️  Creating target table structure..." ;;
  ddl_src ← get_table_ddl src_sess source_db source_schema table;
  ddl_tgt ← match ddl_src with
            | PStr d => mret (rewrite_table_ddl (unicode lib) d source_db source_schema
                                target_db target_schema)
            | PInt _ => raise (Exception "expected string or bytes-like object, got 'int'")
            | PNone => raise (Exception "expected string or bytes-like object, got 'NoneType'")
            end;
  sql tgt_sess ddl_tgt ;;
  logging_info ("✅ Created target table " +:+ fq_name target_db target_schema table) ;;
  tgt_columns ← get_table_columns tgt_sess target_db target_schema table;
  if negb (py_list_eqb src_columns tgt_columns) then
    logging_warning "⚠️  Column mismatch between source and target:" ;;
    logging_warning ("Source: " +:+ repr_list (py_repr (unicode lib) <$> src_columns)) ;;
    logging_warning ("Target: " +:+ repr_list (py_repr (unicode lib) <$> tgt_columns))
  else mret ().

(** Source owner and grants, captured for the replay after the load. *)
Definition capture_grants (table : string) : M (PyVal * list GrantRecord) :=
  owner ← show_table_owner src_sess source_db source_schema table;
  let owner_role := match owner with
                    | Some v => if py_truthy v then v else PStr "ACCOUNTADMIN"
                    | None => PStr "ACCOUNTADMIN"
                    end in
  role_grants ← fetch_role_grants_on_table (unicode lib) src_sess source_db source_schema
                   table;
  mret (owner_role, role_grants).

(** Step 2: stage paths, named after the second the step runs in. *)
Definition step2_prepare_stage (table : string) : M string :=
  print "   🧹 Preparing staging areas..." ;;
  now ← call UtcNow;
  let timestamp := strftime_compact now in
  _clean_stage_path src_sess (src_stage_subpath timestamp table) ;;
  _clean_stage_path tgt_sess (tgt_stage_subpath timestamp table) ;;
  mret timestamp.

Definition unload_sql (timestamp table : string) (src_columns : list PyVal) : string :=
  let column_list := join ", " ((λ col, quoted (py_str col)) <$> src_columns) in
  NL +:+ "                COPY INTO @~/" +:+ src_stage_subpath timestamp table +:+ NL
  +:+ "                FROM (SELECT " +:+ column_list +:+ " FROM "
  +:+ fq_name source_db source_schema table +:+ ")" +:+ NL
  +:+ "                FILE_FORMAT=(" +:+ FILE_FORMAT +:+ ")" +:+ NL
  +:+ "                HEADER=TRUE" +:+ NL
  +:+ "                OVERWRITE=TRUE" +:+ NL
  +:+ "                SINGLE=TRUE" +:+ NL
  +:+ "            ".

(** Step 3, first half: unload to the source user stage and list what is
    there. *)
Definition step3_unload (timestamp table : string) (src_columns : list PyVal)
  : M (list PyVal) :=
  print "   📤 Exporting data from source..." ;;
  sql src_sess (unload_sql timestamp table src_columns) ;;
  try_except (sql src_sess "LIST @~" ;; mret ()) (λ _, mret ()) ;;
  _list_user_stage src_sess (src_stage_subpath timestamp table).

(** Step 3, second half: an export that left no file is an error. *)
Definition step3_check (timestamp table : string) (src_cnt_before : PyVal)
    (files : list PyVal) : M unit :=
  match files with
  | [] => raise (Exception ("Unloaded 0 files at @~/" +:+ src_stage_subpath timestamp table
                            +:+ "% but source rowcount is " +:+ py_str src_cnt_before +:+ "."))
  | _ => print ("   ✅ Exported " +:+ str_nat (length files) +:+ " file(s) to source stage")
  end.

(** [sum(os.path.getsize(os.path.join(local_dir, f)) for f in files)] *)
Fixpoint total_getsize (local_dir : string) (files : list string) (acc : Z) : M Z :=
  match files with
  | [] => mret acc
  | f :: files' =>
      size ← call (Getsize (path_join local_dir f));
      total_getsize local_dir files' (acc + size)
  end.

(** Step 4: GET to the local scratch directory. *)
Definition step4_download (timestamp table : string) (files : list PyVal)
  : M (list string) :=
  print "   📥 Downloading data to local staging..." ;;
  let local_dir := local_dir_of timestamp table in
  call (Makedirs local_dir) ;;
  stale ← call (Glob (path_join local_dir "*"));
  for_each stale (λ f, call (Remove f)) ;;
  try_except
    (get_result ← call (Sql src_sess ("GET @~/" +:+ src_stage_subpath timestamp table
                                       +:+ "* 'file://" +:+ local_dir +:+ "'"));
     logging_info ("GET result: " +:+ repr_rows lib get_result))
    (λ e,
       logging_error ("Wildcard GET failed: " +:+ str_exn e) ;;
       logging_info "Trying individual file GET operations..." ;;
       for_each files (λ stage_file : PyVal,
         full_stage_path ← str_method "startswith"
           (λ s, if startswith s "@~" then s else "@~/" +:+ s) stage_file;
         try_except
           (sql src_sess ("GET '" +:+ full_stage_path +:+ "' 'file://" +:+ local_dir +:+ "'") ;;
            mret ())
           (λ file_err,
              logging_error ("Failed to GET file " +:+ full_stage_path +:+ ": "
                             +:+ str_exn file_err)))) ;;
  downloaded_files ← call (Listdir local_dir);
  match downloaded_files with
  | [] => raise (Exception "Failed to download any files from stage")
  | _ =>
      total_size ← total_getsize local_dir downloaded_files 0;
      print ("   ✅ Downloaded " +:+ str_nat (length downloaded_files) +:+ " file(s) ("
             +:+ format_commas total_size +:+ " bytes)") ;;
      for_each downloaded_files (λ f, call (Getsize (path_join local_dir f)) ;; mret ()) ;;
      mret downloaded_files
  end.

(** Step 5: PUT every downloaded file to the target user stage. *)
Definition step5_upload (timestamp table : string) (downloaded_files : list string)
  : M unit :=
  print "   📤 Uploading to target stage..." ;;
  let local_dir := local_dir_of timestamp table in
  for_each downloaded_files (λ local_file,
    let local_file_path := path_join local_dir local_file in
    call (PathExists local_file_path) ≫= λ present : bool,
    if present then
      sql tgt_sess ("PUT 'file://" +:+ local_file_path +:+ "' @~/"
                    +:+ tgt_stage_subpath timestamp table
                    +:+ "/ OVERWRITE=TRUE AUTO_COMPRESS=FALSE") ;;
      mret ()
    else raise (Exception ("Local file not found: " +:+ local_file_path))) ;;
  tgt_files ← _list_user_stage tgt_sess (tgt_stage_subpath timestamp table);
  match tgt_files with
  | [] => raise (Exception ("No files found in target stage @~/"
                            +:+ tgt_stage_subpath timestamp table +:+ "/"))
  | _ => print ("   ✅ Uploaded " +:+ str_nat (length tgt_files) +:+ " file(s) to target stage")
  end.

Definition copy_sql (timestamp table : string) : string :=
  NL +:+ "                COPY INTO " +:+ fq_name target_db target_schema table +:+ NL
  +:+ "                FROM @~/" +:+ tgt_stage_subpath timestamp table +:+ "/" +:+ NL
  +:+ "                FILE_FORMAT=(" +:+ FILE_FORMAT +:+ ")" +:+ NL
  +:+ "                MATCH_BY_COLUMN_NAME=CASE_INSENSITIVE" +:+ NL
  +:+ "                ON_ERROR='ABORT_STATEMENT'" +:+ NL
  +:+ "                PURGE=TRUE" +:+ NL
  +:+ "            ".

(** Step 6: COPY INTO the target table. *)
Definition step6_load (timestamp table : string) : M unit :=
  print "   📥 Loading data into target table..." ;;
  sql tgt_sess (copy_sql timestamp table) ;;
  mret ().

(** Step 7: replay role grants and ownership on the target; anything raised
    in here is logged and dropped. *)
Definition step7_permissions (table : string) (owner_role : PyVal)
    (role_grants : list GrantRecord) : M unit :=
  print "   🔐 Applying permissions and ownership..." ;;
  try_except
    (grants_applied ←
       match role_grants with
       | [] => mret 0%nat
       | _ => apply_role_grants tgt_sess target_db target_schema table role_grants ;;
              mret (length role_grants)
       end;
     (if py_truthy owner_role
      then transfer_ownership tgt_sess target_db target_schema table (py_str owner_role)
      else mret ()) ;;
     if (0 <? grants_applied)%nat || py_truthy owner_role
     then print ("   ✅ Applied permissions (" +:+ str_nat grants_applied +:+ " grants, owner: "
                 +:+ py_str owner_role +:+ ")")
     else mret ())
    (λ e, logging_warning ("Non-critical grant/ownership error for " +:+ table +:+ ": "
                           +:+ str_exn e)).

(** Step 8: compare the target row count with the count taken in step 0. *)
Definition step8_validate (table : string) (src_cnt_before : PyVal) : M MigrationOutcome :=
  print "   🔍 Validating data integrity..." ;;
  let s_cnt := src_cnt_before in
  t_cnt ← rowcount tgt_sess target_db target_schema table;
  let status := if py_eqb s_cnt t_cnt then OK else ROWCOUNT_MISMATCH in
  match status with
  | ROWCOUNT_MISMATCH =>
      s_txt ← format_commas_val s_cnt;
      t_txt ← format_commas_val t_cnt;
      print ("   ❌ ERROR: Row count mismatch! Source: " +:+ s_txt +:+ ", Target: " +:+ t_txt) ;;
      logging_error ("CRITICAL: Row count mismatch for " +:+ table)
  | _ =>
      t_txt ← format_commas_val t_cnt;
      print ("   ✅ SUCCESS: " +:+ t_txt +:+ " rows migrated successfully")
  end ;;
  mret (mkOutcome table s_cnt t_cnt status).

(** The body of the [try] of one loop iteration; the value returned is what
    the iteration appends to [summary]. *)
Definition migrate_table (n_tables i : nat) (table : string) : M MigrationOutcome :=
  '(src_cnt_before, src_columns) ← step0_analyze n_tables i table;
  match src_columns with
  | [] =>
      print ("   ⚠️  No columns found for " +:+ source_schema +:+ "." +:+ table +:+ ", skipping") ;;
      mret (mkOutcome table (PInt (-1)) (PInt (-1)) NO_COLUMNS)
  | _ =>
      report_source_stats src_cnt_before src_columns ;;
      step1_create_target table src_columns ;;
      '(owner_role, role_grants) ← capture_grants table;
      if py_eqb src_cnt_before (PInt 0) then
        print "   ✅ Empty table - structure only migration" ;;
        mret (mkOutcome table (PInt 0) (PInt 0) OK_EMPTY)
      else
        timestamp ← step2_prepare_stage table;
        files ← step3_unload timestamp table src_columns;
        step3_check timestamp table src_cnt_before files ;;
        downloaded_files ← step4_download timestamp table files;
        step5_upload timestamp table downloaded_files ;;
        step6_load timestamp table ;;
        step7_permissions table owner_role role_grants ;;
        step8_validate table src_cnt_before
  end.

(** One iteration of the loop: the [try] body and its [except Exception]. *)
Definition migrate_one (n_tables i : nat) (table : string) : M MigrationOutcome :=
  try_except
    (migrate_table n_tables i table)
    (λ e,
       print ("   ❌ FAILED: " +:+ str_exn e) ;;
       logging_error ("Failed migrating " +:+ source_schema +:+ "." +:+ table +:+ ": "
                      +:+ str_exn e) ;;
       mret (error_outcome table)).

(** [for i, table in enumerate(tables, 1)] *)
Fixpoint migrate_loop (n_tables i : nat) (tables : list string)
    (summary : list MigrationOutcome) : M (list MigrationOutcome) :=
  match tables with
  | [] => mret summary
  | table :: rest =>
      o ← migrate_one n_tables i table;
      migrate_loop n_tables (S i) rest (summary ++ [o])
  end.

Definition set_target_context : M unit :=
  try_except
    (sql tgt_sess ("USE DATABASE " +:+ quoted target_db) ;;
     sql tgt_sess ("USE SCHEMA " +:+ quoted target_db +:+ "." +:+ quoted target_schema) ;;
     logging_info ("Target session confirmed using " +:+ quoted target_db +:+ "."
                   +:+ quoted target_schema))
    (λ e, raise (Exception ("Failed to set target session context: " +:+ str_exn e))).

(** The function body for a given table list. *)
Definition migrate_tables (tables : list string) : M (list MigrationOutcome) :=
  set_target_context ;;
  migrate_loop (length tables) 1 tables [].

End MigrateTables.

Definition migrate_tables_with_user_stage (lib : PyLib) (src_sess tgt_sess : Session)
    (source_db source_schema target_db target_schema : string)
    (tables : list string) (base_tmp_dir : string) : M (list MigrationOutcome) :=
  migrate_tables lib
    (mkCallArgs src_sess tgt_sess source_db source_schema target_db target_schema base_tmp_dir)
    tables.

(** ** Main *)

(** The USER CONFIG section of the script. *)
Record Config : Type := mkConfig {
  USERNAME : string;
  SOURCE : ConnCfg;
  TARGET : ConnCfg;
  SOURCE_DB : string;
  SOURCE_SCHEMA : string;
  TABLES : list string;
  TARGET_DB : string;
  TARGET_SCHEMA : string;
  LOCAL_BASE : option string
}.

(** The values the repository ships with. *)
Definition repo_config : Config :=
  {| USERNAME := "CHILTON";
     SOURCE := {| cfg_account := "RIRJXLY-XFB95710"; cfg_user := "CHILTON";
                  cfg_role := "ACCOUNTADMIN"; cfg_warehouse := Some "COMPUTE_WH";
                  cfg_authenticator := "SNOWFLAKE_JWT";
                  cfg_private_key_file := "/Users/cassidy.hilton/Documents/rsa_key.p8" |};
     TARGET := {| cfg_account := "UAYHHFB-VBB75852"; cfg_user := "CHILTON";
                  cfg_role := "ACCOUNTADMIN"; cfg_warehouse := Some "COMPUTE_WH";
                  cfg_authenticator := "SNOWFLAKE_JWT";
                  cfg_private_key_file := "/Users/cassidy.hilton/Documents/rsa_key.p8" |};
     SOURCE_DB := "COBRA_DEMO_DB";
     SOURCE_SCHEMA := "COBRA_DEMO_SCHEMA";
     TABLES := ["EMPLOYEES"; "CUSTOMERS"; "ORDERS"; "PRODUCTS"];
     TARGET_DB := "COBRA_DEMO_DB";
     TARGET_SCHEMA := "COBRA_DEMO_SCHEMA";
     LOCAL_BASE := None |}.

(** [{t.upper(): t for t in names}]: a later name replaces an earlier one
    with the same key. *)
Fixpoint index_tables (u : Unicode) (names : list PyVal) (available : gmap string string)
  : M (gmap string string) :=
  match names with
  | [] => mret available
  | t :: rest =>
      key ← str_method "upper" (upper u) t;
      index_tables u rest (<[key := py_str t]> available)
  end.

(** [[t for t in wanted if t not in available]] *)
Definition missing_tables (available : gmap string string) (wanted : list string)
  : list string :=
  filter (λ t, available !! t = None) wanted.

(** [[available[t] for t in wanted]] *)
Fixpoint resolve_tables (u : Unicode) (available : gmap string string) (wanted : list string)
  : M (list string) :=
  match wanted with
  | [] => mret []
  | t :: rest =>
      match available !! t with
      | Some name => names ← resolve_tables u available rest; mret (name :: names)
      | None => raise (Exception (repr_str u t))
      end
  end.

Definition missing_message (u : Unicode) (cfg : Config) (missing : list string) : string :=
  "❌ These tables do not exist in " +:+ SOURCE_DB cfg +:+ "." +:+ SOURCE_SCHEMA cfg
  +:+ ": " +:+ repr_list (repr_str u <$> missing).

(** Resolve the requested names against the source catalog. *)
Definition validate_tables (u : Unicode) (cfg : Config) : M (list string) :=
  print "🔍 Validating source tables..." ;;
  names ← list_tables Src (SOURCE_DB cfg) (SOURCE_SCHEMA cfg);
  available ← index_tables u names ∅;
  let wanted := upper u <$> TABLES cfg in
  let missing := missing_tables available wanted in
  match missing with
  | [] => resolve_tables u available wanted
  | _ => _fatal (missing_message u cfg missing)
  end.

(** Comparisons of a count with zero; they need a number. *)
Definition py_cmp0 (cmp : Z → bool) (op : string) (v : PyVal) : M bool :=
  match v with
  | PInt n => mret (cmp n)
  | PStr _ => raise (Exception ("'" +:+ op +:+ "' not supported between instances of 'str' and 'int'"))
  | PNone => raise (Exception ("'" +:+ op +:+ "' not supported between instances of 'NoneType' and 'int'"))
  end.

(** [x + v] for an integer accumulator *)
Definition py_add (x : Z) (v : PyVal) : M Z :=
  match v with
  | PInt n => mret (x + n)
  | PStr _ => raise (Exception "unsupported operand type(s) for +=: 'int' and 'str'")
  | PNone => raise (Exception "unsupported operand type(s) for +=: 'int' and 'NoneType'")
  end.

Record Stats : Type := mkStats {
  successful : Z; errors : Z; mismatches : Z; total_rows_migrated : Z; empty_tables : Z
}.

Fixpoint tally (summary : list MigrationOutcome) (st : Stats) : M Stats :=
  match summary with
  | [] => mret st
  | o :: rest =>
      st' ← match o_status o with
            | OK =>
                py_cmp0 (λ n, 0 <? n) ">" (o_tgt_cnt o) ≫= λ positive : bool,
                moved ← (if positive then py_add (total_rows_migrated st) (o_tgt_cnt o)
                         else mret (total_rows_migrated st));
                mret (mkStats (successful st + 1) (errors st) (mismatches st) moved
                        (empty_tables st))
            | OK_EMPTY =>
                mret (mkStats (successful st + 1) (errors st) (mismatches st)
                        (total_rows_migrated st) (empty_tables st + 1))
            | ERROR =>
                mret (mkStats (successful st) (errors st + 1) (mismatches st)
                        (total_rows_migrated st) (empty_tables st))
            | ROWCOUNT_MISMATCH =>
                mret (mkStats (successful st) (errors st) (mismatches st + 1)
                        (total_rows_migrated st) (empty_tables st))
            | NO_COLUMNS => mret st
            end;
      tally rest st'
  end.

(** The text shown for a row count: the count with separators, or [ERROR]
    for a negative one. *)
Definition count_display (cnt : PyVal) : M string :=
  py_cmp0 (λ n, 0 <=? n) ">=" cnt ≫= λ shown : bool,
  if shown then format_commas_val cnt else mret "ERROR".

Definition status_display (status : Status) : string :=
  match status with
  | OK => "✅ SUCCESS"
  | OK_EMPTY => "✅ EMPTY"
  | ERROR => "❌ ERROR"
  | ROWCOUNT_MISMATCH => "⚠️  MISMATCH"
  | NO_COLUMNS => status_str NO_COLUMNS
  end.

(** One line of the table of results. *)
Definition report_row (o : MigrationOutcome) : M string :=
  src_display ← count_display (o_src_cnt o);
  tgt_display ← count_display (o_tgt_cnt o);
  mret (ljust 20 (o_table o) +:+ " " +:+ rjust 12 src_display +:+ " "
        +:+ rjust 12 tgt_display +:+ " " +:+ rjust 15 (status_display (o_status o))).

Section Main.

Variable lib : PyLib.
Variable cfg : Config.

Definition print_report (summary : list MigrationOutcome) (duration_text : string)
    (end_time : DateTime) : M unit :=
  print (NL +:+ repeat_str "=" 80) ;;
  print "📊 MIGRATION SUMMARY REPORT" ;;
  print (repeat_str "=" 80) ;;
  let total_tables := length summary in
  st ← tally summary (mkStats 0 0 0 0 0);
  print (ljust 20 "Table Name" +:+ " " +:+ rjust 12 "Source Rows" +:+ " "
         +:+ rjust 12 "Target Rows" +:+ " " +:+ rjust 15 "Status") ;;
  print (repeat_str "-" 80) ;;
  for_each summary (λ o, line ← report_row o; print line) ;;
  print (repeat_str "-" 80) ;;
  print "📈 MIGRATION STATISTICS:" ;;
  print ("   • Total Tables:       " +:+ str_nat total_tables) ;;
  print ("   • Successful:         " +:+ str_int (successful st) +:+ " ✅") ;;
  print ("   • Empty Tables:       " +:+ str_int (empty_tables st)) ;;
  print ("   • Row Mismatches:     " +:+ str_int (mismatches st)) ;;
  print ("   • Errors:             " +:+ str_int (errors st)) ;;
  print ("   • Total Rows Moved:   " +:+ format_commas (total_rows_migrated st)) ;;
  print ("   • Duration:           " +:+ duration_text) ;;
  print (NL +:+ "🔄 MIGRATION DETAILS:") ;;
  print ("   • Source Account:     " +:+ cfg_account (SOURCE cfg)) ;;
  print ("   • Target Account:     " +:+ cfg_account (TARGET cfg)) ;;
  print ("   • Database.Schema:    " +:+ SOURCE_DB cfg +:+ "." +:+ SOURCE_SCHEMA cfg) ;;
  print "   • Migration Method:   Snowflake User Stages + CSV Format" ;;
  print ("   • Completed At:       " +:+ strftime_human end_time +:+ " UTC") ;;
  print (repeat_str "=" 80) ;;
  (if (0 <? errors st) || (0 <? mismatches st) then
     print "⚠️  MIGRATION COMPLETED WITH ISSUES" ;;
     print "❌ Please review the errors above and re-run for failed tables." ;;
     if 0 <? mismatches st
     then print "⚠️  Row count mismatches detected - data integrity may be compromised."
     else mret ()
   else
     print "🎉 MIGRATION COMPLETED SUCCESSFULLY!" ;;
     print "✅ All tables migrated with full data integrity." ;;
     if 0 <? total_rows_migrated st
     then print ("📊 " +:+ format_commas (total_rows_migrated st)
                 +:+ " total rows successfully migrated.")
     else mret ()) ;;
  print (repeat_str "=" 80).

(** [main], up to and including the connections. *)
Definition main_connect : M (DateTime * string) :=
  (if String.eqb (upper (unicode lib) (SOURCE_SCHEMA cfg)) "INFORMATION_SCHEMA"
   then _fatal "Refusing to operate on INFORMATION_SCHEMA."
   else mret ()) ;;
  print (NL +:+ repeat_str "=" 80) ;;
  print "🚀 SNOWFLAKE TABLE MIGRATION TOOL" ;;
  print (repeat_str "=" 80) ;;
  print ("📊 Source:      " +:+ cfg_account (SOURCE cfg) +:+ " → " +:+ SOURCE_DB cfg +:+ "."
         +:+ SOURCE_SCHEMA cfg) ;;
  print ("🎯 Target:      " +:+ cfg_account (TARGET cfg) +:+ " → " +:+ TARGET_DB cfg +:+ "."
         +:+ TARGET_SCHEMA cfg) ;;
  print ("📋 Tables:      " +:+ str_nat (length (TABLES cfg)) +:+ " tables to migrate") ;;
  print ("👤 User:        " +:+ USERNAME cfg) ;;
  print (repeat_str "=" 80) ;;
  start_time ← call UtcNow;
  base_tmp ← match LOCAL_BASE cfg with
             | Some (String c p) => mret (String c p)
             | _ => call (Mkdtemp "sf-migrate-")
             end;
  logging_info ("📁 Temporary directory: " +:+ base_tmp) ;;
  print "🔗 Establishing connections..." ;;
  connect_and_enforce (unicode lib) Src (SOURCE cfg) (USERNAME cfg) "ACCOUNTADMIN" ;;
  connect_and_enforce (unicode lib) Tgt (TARGET cfg) (USERNAME cfg) "ACCOUNTADMIN" ;;
  print "✅ Connected to both source and target Snowflake accounts" ;;
  mret (start_time, base_tmp).

(** Target database and schema, then the source session context. *)
Definition main_prepare : M unit :=
  print "🏗️  Preparing target database and schema..." ;;
  ensure_db_schema (unicode lib) Tgt (TARGET_DB cfg) (Some (TARGET_SCHEMA cfg)) ;;
  try_except
    (sql Src ("USE DATABASE " +:+ quoted (SOURCE_DB cfg)) ;;
     sql Src ("USE SCHEMA " +:+ quoted (SOURCE_DB cfg) +:+ "." +:+ quoted (SOURCE_SCHEMA cfg)) ;;
     logging_info ("📍 Source context set to " +:+ quoted (SOURCE_DB cfg) +:+ "."
                   +:+ quoted (SOURCE_SCHEMA cfg)))
    (λ e, _fatal ("Failed to set source database/schema context: " +:+ str_exn e)).

(** What [main] does once the table names are resolved. *)
Definition main_migrate (start_time : DateTime) (base_tmp : string) (tables : list string)
  : M unit :=
  print ("✅ Validated " +:+ str_nat (length tables) +:+ " tables: " +:+ join ", " tables) ;;
  print (NL +:+ "🚀 Starting table migration...") ;;
  print (repeat_str "-" 80) ;;
  summary ← migrate_tables_with_user_stage lib Src Tgt
              (SOURCE_DB cfg) (SOURCE_SCHEMA cfg) (TARGET_DB cfg) (TARGET_SCHEMA cfg)
              tables base_tmp;
  end_time ← call UtcNow;
  print_report summary (duration_str lib start_time end_time) end_time ;;
  match LOCAL_BASE cfg with
  | None =>
      try_except
        (call (Rmtree base_tmp) ;;
         logging_info "🧹 Cleaned up temporary directory.")
        (λ _, logging_warning ("Could not remove temp dir: " +:+ base_tmp))
  | Some _ => mret ()
  end.

Definition main : M unit :=
  '(start_time, base_tmp) ← main_connect;
  main_prepare ;;
  tables ← validate_tables (unicode lib) cfg;
  main_migrate start_time base_tmp tables.

End Main.

(** ** Reading a log *)

(** A request of any result type. *)
Inductive AnyRequest : Type :=
| AnyReq {T : Type} (rq : Request T).

(** The requests of a log, in order. *)
Definition requests (tr : list Event) : list AnyRequest :=
  omap (λ e, match e with ECall rq _ => Some (AnyReq rq) | _ => None end) tr.


(** The statements a log shows for one session, in order. *)
Definition statements_on (s : Session) (tr : list Event) : list string :=
  omap (λ e, match e with
             | ECall rq _ =>
                 match rq with
                 | Sql s' q => match s, s' with
                               | Src, Src | Tgt, Tgt => Some q
                               | _, _ => None
                               end
                 | _ => None
                 end
             | _ => None
             end) tr.

(** The session a request goes to, if it goes to one. *)
Definition request_session (r : AnyRequest) : option Session :=
  match r with
  | AnyReq rq =>
      match rq with
      | Connect s _ => Some s
      | Sql s _ => Some s
      | _ => None
      end
  end.

Definition on_target (r : AnyRequest) : bool :=
  match request_session r with Some Tgt => true | _ => false end.

(** ** Scripted environments

    Environments that answer by the text of the statement, for running the
    model on concrete cases. *)

Record Scenario : Type := mkScenario {
  sc_src_rows : PyVal;
  sc_tgt_rows : PyVal;
  sc_columns : list string;
  sc_staged : list string;
  sc_catalog : list string;
  sc_grants : list (list PyVal);
  sc_fails : Session → string → option string
}.

Definition one_cell (v : PyVal) : ResultSet := mkResultSet ["C1"] [[v]].
Definition one_column (name : string) (vs : list string) : ResultSet :=
  mkResultSet [name] ((λ v, [PStr v]) <$> vs).

Definition scripted (sc : Scenario) : Env := λ T _ rq,
  match rq in Request T return Result T with
  | Connect _ _ => Ok ()
  | Sql s q =>
      match sc_fails sc s q with
      | Some msg => Raise (Exception msg)
      | None =>
          if startswith q "SELECT COUNT(*)"
          then Ok (one_cell (match s with Src => sc_src_rows sc | Tgt => sc_tgt_rows sc end))
          else if contains "INFORMATION_SCHEMA.COLUMNS" q
          then Ok (one_column "COLUMN_NAME" (sc_columns sc))
          else if contains "INFORMATION_SCHEMA.TABLES" q
          then Ok (one_column "TABLE_NAME" (sc_catalog sc))
          else if startswith q "SELECT GET_DDL"
          then Ok (one_cell (PStr "create or replace TABLE EMP (ID NUMBER(38,0), NAME VARCHAR(50));"))
          else if startswith q "SELECT CURRENT_USER"
          then Ok (mkResultSet ["CURRENT_USER()"; "CURRENT_ROLE()"; "CURRENT_VERSION()"]
                     [[PStr "chilton"; PStr "ACCOUNTADMIN"; PStr "9.30.1"]])
          else if startswith q "SHOW WAREHOUSES"
          then Ok (one_column "name" ["COMPUTE_WH"])
          else if startswith q "LIST @~/"
          then Ok (one_column "name" (sc_staged sc))
          else if startswith q "SHOW TABLES"
          then Ok (mkResultSet ["name"; "owner"] [[PStr "EMP"; PStr "SYSADMIN"]])
          else if startswith q "SHOW GRANTS"
          then Ok (mkResultSet ["privilege"; "granted_to"; "grantee_name"] (sc_grants sc))
          else Ok (mkResultSet [] [])
      end
  | UtcNow => Ok (mkDateTime 2025 3 9 14 5 7 250000)
  | Mkdtemp prefix => Ok ("/tmp/" +:+ prefix +:+ "k3x9")
  | Makedirs _ => Ok ()
  | Glob _ => Ok []
  | Remove _ => Ok ()
  | Listdir _ => Ok ["data_0_0_0.csv"]
  | Getsize _ => Ok 4200
  | PathExists _ => Ok true
  | Rmtree _ => Ok ()
  end.

Definition never_fails : Session → string → option string := λ _ _, None.

(** The scripted runs are on ASCII text: what stands for the Unicode tables
    is never consulted. *)
Definition demo_unicode : Unicode :=
  mkUnicode (λ s, s) (λ s, s) (λ ddl _ _ _ _, ddl).

Definition demo_lib : PyLib :=
  mkPyLib demo_unicode (λ rs, "[" +:+ str_nat (length (rs_rows rs)) +:+ " rows]")
    (λ _ _, "0:00:42").

Definition demo_args : CallArgs :=
  mkCallArgs Src Tgt "SRC_DB" "SALES" "TGT_DB" "SALES" "/tmp/scratch".

Definition demo_grants : list (list PyVal) :=
  [ [PStr "SELECT"; PStr "ROLE"; PStr "ANALYST"];
    [PStr "INSERT"; PStr "ROLE"; PStr "LOADER"];
    [PStr "SELECT"; PStr "USER"; PStr "BOB"] ].

(** A table of 1,234 rows and two columns whose copy arrives complete. *)
Definition sc_healthy : Scenario :=
  mkScenario (PInt 1234) (PInt 1234) ["ID"; "NAME"] ["migrate_export_20250309T140507Z_EMP"]
    ["EMP"; "Orders"] demo_grants never_fails.

(** Rows are counted but the catalog lists no column. *)
Definition sc_no_columns : Scenario :=
  mkScenario (PInt 5) (PInt 0) [] [] ["EMP"] demo_grants never_fails.



(** The load of the table [BAD] aborts; other tables are healthy. *)
Definition sc_bad_load : Scenario :=
  mkScenario (PInt 1234) (PInt 1234) ["ID"; "NAME"] ["migrate_export_x"]
    ["BAD"; "EMP"] demo_grants
    (λ s q, if contains "COPY INTO " q && contains "BAD" q
                && match s with Tgt => true | Src => false end
            then Some "Numeric value 'x' is not recognized" else None).


Definition ghost_config : Config :=
  mkConfig "CHILTON" (SOURCE repo_config) (TARGET repo_config)
    "SRC_DB" "SALES" ["emp"; "ghost"; "Phantom"] "TGT_DB" "SALES" None.




(** * Properties *)

(** ** Running the monad *)

Section RunLemmas.

Context {A B : Type}.
Implicit Types (env : Env) (tr : list Event).

Lemma run_mret (a : A) env tr : run (mret a) env tr = (Ok a, tr).
Proof. reflexivity. Qed.


Lemma run_bind (m : M A) (f : A → M B) env tr :
  run (m ≫= f) env tr =
  match run m env tr with
  | (Ok a, tr') => run (f a) env tr'
  | (Raise e, tr') => (Raise e, tr')
  end.
Proof. reflexivity. Qed.

Lemma run_bind_ok (m : M A) (f : A → M B) env tr a tr1 :
  run m env tr = (Ok a, tr1) → run (m ≫= f) env tr = run (f a) env tr1.
Proof. intros H. rewrite run_bind, H. reflexivity. Qed.

Lemma run_bind_raise (m : M A) (f : A → M B) env tr e tr1 :
  run m env tr = (Raise e, tr1) → run (m ≫= f) env tr = (Raise e, tr1).
Proof. intros H. rewrite run_bind, H. reflexivity. Qed.

Lemma run_bind_inv (m : M A) (f : A → M B) env tr b tr' :
  run (m ≫= f) env tr = (Ok b, tr') →
  ∃ a tr1, run m env tr = (Ok a, tr1) ∧ run (f a) env tr1 = (Ok b, tr').
Proof.
  rewrite run_bind. destruct (run m env tr) as [[a|e] tr1]; intros H.
  - exists a, tr1. split; [reflexivity | exact H].
  - discriminate H.
Qed.

Lemma run_try_except (body : M A) (h : exn → M A) env tr :
  run (try_except body h) env tr =
  match run body env tr with
  | (Ok a, tr') => (Ok a, tr')
  | (Raise e, tr') => run (h e) env tr'
  end.
Proof. reflexivity. Qed.

Lemma run_bind_mret (a : A) (f : A → M B) env tr :
  run (mret a ≫= f) env tr = run (f a) env tr.
Proof. reflexivity. Qed.

End RunLemmas.

Lemma run_emit_bind {B} (e : Event) (f : unit → M B) env tr :
  run (emit e ≫= f) env tr = run (f ()) env (tr ++ [e]).
Proof. reflexivity. Qed.

Lemma run_emit (e : Event) env tr : run (emit e) env tr = (Ok (), tr ++ [e]).
Proof. reflexivity. Qed.

Lemma run_call {T} (rq : Request T) env tr :
  run (call rq) env tr = (env T tr rq, tr ++ [ECall rq (env T tr rq)]).
Proof. reflexivity. Qed.

Lemma run_sql (s : Session) (q : string) env tr :
  run (sql s q) env tr =
  match env _ tr (Sql s q) with
  | Ok rs => (Ok (rs_rows rs), tr ++ [ECall (Sql s q) (Ok rs)])
  | Raise e => (Raise e, tr ++ [ECall (Sql s q) (Raise e)])
  end.
Proof.
  unfold sql. rewrite run_bind, run_call.
  destruct (env ResultSet tr (Sql s q)); reflexivity.
Qed.

(** Pure computations leave the log alone. *)
Lemma run_list_item {A} (l : list A) i env tr :
  run (list_item l i) env tr =
  (match l !! i with Some a => Ok a | None => Raise (Exception "list index out of range") end,
   tr).
Proof. unfold list_item. destruct (l !! i); reflexivity. Qed.

Lemma run_row_item (r : list PyVal) i env tr :
  run (row_item r i) env tr =
  (match r !! i with Some a => Ok a | None => Raise (Exception "tuple index out of range") end,
   tr).
Proof. unfold row_item. destruct (r !! i); reflexivity. Qed.

Lemma run_first_cells rows env tr : ∃ r, run (first_cells rows) env tr = (r, tr).
Proof.
  induction rows as [|row rows IH]; simpl.
  - eexists. reflexivity.
  - rewrite run_bind, run_row_item. destruct (row !! 0%nat).
    + rewrite run_bind. destruct IH as [r ->]. destruct r; eexists; reflexivity.
    + eexists. reflexivity.
Qed.

Lemma first_cells_nil_inv rows env tr tr' :
  run (first_cells rows) env tr = (Ok [], tr') → rows = [].
Proof.
  destruct rows as [|row rows]; [reflexivity|]. simpl.
  rewrite run_bind, run_row_item. destruct (row !! 0%nat); [|discriminate].
  rewrite run_bind. destruct (run (first_cells rows) env tr) as [[vs|e] t]; discriminate.
Qed.

Lemma run_format_commas_val v env tr : ∃ r, run (format_commas_val v) env tr = (r, tr).
Proof. destruct v; eexists; reflexivity. Qed.

(** ** Strings *)

Lemma app_cons_str c (a b : string) : String c a +:+ b = String c (a +:+ b).
Proof. reflexivity. Qed.

Lemma app_nil_str (b : string) : EmptyString +:+ b = b.
Proof. reflexivity. Qed.

(** Push an append through the literal characters at its head. *)
Ltac str_norm := rewrite ?app_cons_str, ?app_nil_str.


Lemma app_assoc_str (a b c : string) : (a +:+ b) +:+ c = a +:+ (b +:+ c).
Proof. induction a as [|x a IH]; str_norm; [reflexivity | rewrite IH; reflexivity]. Qed.



(** ** The substitution passes *)

Module RegexFacts.
Import Regex.

Lemma eqb_ci_refl c : eqb_ci_ascii c c = true.
Proof. unfold eqb_ci_ascii. apply Ascii.eqb_refl. Qed.

Lemma ci_equal_refl s : ci_equal s s = true.
Proof. induction s as [|c s IH]; simpl; [reflexivity|]. rewrite eqb_ci_refl, IH. reflexivity. Qed.

Lemma ci_equal_app a1 a2 b1 b2 :
  ci_equal a1 b1 = true → ci_equal a2 b2 = true → ci_equal (a1 +:+ a2) (b1 +:+ b2) = true.
Proof.
  revert b1. induction a1 as [|x a1 IH]; intros [|y b1] H1 H2; simpl in H1;
    try discriminate H1; str_norm; [exact H2|].
  simpl. apply andb_prop in H1 as [Hxy H1]. rewrite Hxy. simpl. apply IH; assumption.
Qed.

Lemma lit_ci_input a : ∀ lit r, ci_equal a lit = true → lit_ci lit (a +:+ r) = Some r.
Proof.
  induction a as [|x a IH]; intros [|y lit] r H; simpl in H; try discriminate H; str_norm.
  - reflexivity.
  - simpl. apply andb_prop in H as [Hxy H]. rewrite Hxy. apply IH, H.
Qed.

Lemma span_not_stop q obj rest :
  all_chars (λ c, negb (Ascii.eqb c q)) obj = true →
  span_not q (obj +:+ String q rest) = (obj, String q rest).
Proof.
  induction obj as [|c obj IH]; intros H; str_norm; simpl.
  - rewrite Ascii.eqb_refl. reflexivity.
  - simpl in H. apply andb_prop in H as [Hc H]. apply negb_true_iff in Hc. rewrite Hc.
    rewrite (IH H). reflexivity.
Qed.



Lemma last_of_app p a b : last_of p (a +:+ b) = last_of (last_of p a) b.
Proof. revert p. induction a as [|c a IH]; intros p; str_norm; [reflexivity|]. simpl. apply IH. Qed.

Lemma last_of_snoc p a c : last_of p (a +:+ String c EmptyString) = Some c.
Proof. rewrite last_of_app. reflexivity. Qed.

Lemma comment_span_last prev kw ws1 ws2 body :
  last_of prev (kw +:+ ws1 +:+ "=" +:+ ws2 +:+ String squote (body +:+ String squote EmptyString))
  = Some squote.
Proof. rewrite !last_of_app. simpl. apply last_of_snoc. Qed.




Lemma match_qualified_at src_db src_schema tgt_db tgt_schema prev db' schema' obj rest :
  ci_equal db' src_db = true →
  ci_equal schema' src_schema = true →
  obj ≠ EmptyString →
  all_chars (λ c, negb (Ascii.eqb c dquote)) obj = true →
  match_qualified src_db src_schema tgt_db tgt_schema prev (qualified db' schema' obj +:+ rest)
  = Some (qualified tgt_db tgt_schema obj, rest).
Proof.
  intros Hdb Hsch Hobj Hq. unfold match_qualified, qualified.
  rewrite !app_assoc_str.
  rewrite lit_ci_input.
  2:{ unfold qualifier. repeat apply ci_equal_app; try apply ci_equal_refl; assumption. }
  unfold DQ at 1. str_norm. rewrite (span_not_stop _ _ _ Hq).
  destruct obj as [|c obj]; [contradiction|]. reflexivity.
Qed.

Lemma match_create_table_at prev kw rest :
  match prev with Some p => is_word_ascii p | None => false end = false →
  ci_equal kw "CREATE TABLE" = true →
  match rest with String n _ => is_word_ascii n | EmptyString => false end = false →
  match_create_table prev (kw +:+ rest) = Some ("CREATE OR REPLACE TABLE", rest).
Proof.
  intros Hprev Hkw Hnext. unfold match_create_table. rewrite Hprev.
  rewrite (lit_ci_input _ _ _ Hkw). destruct rest as [|n r]; [reflexivity|].
  rewrite Hnext. reflexivity.
Qed.














End RegexFacts.

Import Regex RegexFacts.


(** On ASCII arguments the rewriting is the same whatever the library does
    on other text. *)
Lemma rewrite_table_ddl_ascii (u u' : Unicode) ddl src_db src_schema tgt_db tgt_schema :
  is_ascii ddl && is_ascii src_db && is_ascii src_schema && is_ascii tgt_db
    && is_ascii tgt_schema = true →
  rewrite_table_ddl u ddl src_db src_schema tgt_db tgt_schema
  = rewrite_table_ddl u' ddl src_db src_schema tgt_db tgt_schema.
Proof. intros H. unfold rewrite_table_ddl. rewrite H. reflexivity. Qed.


(** ** Staging prefixes *)

Lemma strftime_compact_length d : String.length (strftime_compact d) = 16%nat.
Proof. reflexivity. Qed.







(** ** The per-table pipeline *)

(** Walking down a successful run, one bind at a time. *)
Ltac bind_inv H :=
  let a := fresh "a" in
  let t := fresh "tr" in
  let Ha := fresh "Hrun" in
  apply run_bind_inv in H; destruct H as (a & t & Ha & H); cbv beta in H.

Lemma py_eqb_eq a b : py_eqb a b = true ↔ a = b.
Proof.
  destruct a, b; simpl; split; intros H; try discriminate H; try reflexivity.
  - apply Z.eqb_eq in H. congruence.
  - injection H as ->. apply Z.eqb_refl.
  - apply String.eqb_eq in H. congruence.
  - injection H as ->. apply String.eqb_refl.
Qed.

Lemma requests_app (a b : list Event) : requests (a ++ b) = requests a ++ requests b.
Proof. apply omap_app. Qed.

Section PipelineFacts.

Variable lib : PyLib.
Variable args : CallArgs.
Implicit Types (env : Env) (tr : list Event).

Lemma step8_validate_inv env tr table cnt o tr' :
  run (step8_validate args table cnt) env tr = (Ok o, tr') →
  ∃ t_cnt tr_t,
    run (rowcount (arg_tgt_sess args) (arg_target_db args) (arg_target_schema args) table) env
        (tr ++ [EPrint "   🔍 Validating data integrity..."]) = (Ok t_cnt, tr_t) ∧
    o = mkOutcome table cnt t_cnt (if py_eqb cnt t_cnt then OK else ROWCOUNT_MISMATCH).
Proof.
  unfold step8_validate, print. rewrite run_emit_bind. intros H.
  bind_inv H. exists a, tr0. split; [exact Hrun|].
  bind_inv H. rewrite run_mret in H. congruence.
Qed.

Lemma migrate_table_inv env tr n i table o tr' :
  run (migrate_table lib args n i table) env tr = (Ok o, tr') →
  ∃ cnt cols tr0,
    run (step0_analyze args n i table) env tr = (Ok (cnt, cols), tr0) ∧
    ((cols = [] ∧ o = mkOutcome table (PInt (-1)) (PInt (-1)) NO_COLUMNS ∧
      ∃ msg, tr' = tr0 ++ [EPrint msg])
     ∨ (cols ≠ [] ∧ ∃ tr0' tr1 owner grants tr2,
          run (report_source_stats cnt cols) env tr0 = (Ok (), tr0') ∧
          run (step1_create_target lib args table cols) env tr0' = (Ok (), tr1) ∧
          run (capture_grants lib args table) env tr1 = (Ok (owner, grants), tr2) ∧
          ((py_eqb cnt (PInt 0) = true ∧
            o = mkOutcome table (PInt 0) (PInt 0) OK_EMPTY ∧
            ∃ msg, tr' = tr2 ++ [EPrint msg])
           ∨ (py_eqb cnt (PInt 0) = false ∧
              ∃ ts tr3 files tr4 tr4' downloaded tr5 tr6 tr6' tr7,
                run (step2_prepare_stage args table) env tr2 = (Ok ts, tr3) ∧
                run (step3_unload args ts table cols) env tr3 = (Ok files, tr4) ∧
                run (step3_check ts table cnt files) env tr4 = (Ok (), tr4') ∧
                run (step4_download lib args ts table files) env tr4' = (Ok downloaded, tr5) ∧
                run (step5_upload args ts table downloaded) env tr5 = (Ok (), tr6) ∧
                run (step6_load args ts table) env tr6 = (Ok (), tr6') ∧
                run (step7_permissions args table owner grants) env tr6' = (Ok (), tr7) ∧
                run (step8_validate args table cnt) env tr7 = (Ok o, tr'))))).
Proof.
  unfold migrate_table. intros H.
  bind_inv H. destruct a as [cnt cols]. exists cnt, cols, tr0. split; [exact Hrun|].
  destruct cols as [|c cols].
  - left. unfold print in H. rewrite run_emit_bind, run_mret in H.
    injection H as <- <-. split; [reflexivity|]. split; [reflexivity|]. eexists; reflexivity.
  - right. split; [discriminate|].
    bind_inv H. destruct a. bind_inv H. destruct a. bind_inv H. destruct a as [owner grants].
    exists tr1, tr2, owner, grants, tr3. split; [exact Hrun0|]. split; [exact Hrun1|].
    split; [exact Hrun2|].
    destruct (py_eqb cnt (PInt 0)) eqn:Hz.
    + left. unfold print in H. rewrite run_emit_bind, run_mret in H.
      injection H as <- <-. split; [reflexivity|]. split; [reflexivity|]. eexists; reflexivity.
    + right. split; [reflexivity|].
      bind_inv H. rename a into ts. bind_inv H. rename a into files.
      bind_inv H. destruct a. bind_inv H. rename a into downloaded.
      bind_inv H. destruct a. bind_inv H. destruct a. bind_inv H. destruct a.
      exists ts, tr4, files, tr5, tr6, downloaded, tr7, tr8, tr9, tr10.
      repeat (split; [eassumption|]). exact H.
Qed.



Lemma run_rowcount sess db sch t env tr :
  ∃ r, run (rowcount sess db sch t) env tr
       = (r, tr ++ [ECall (Sql sess (rowcount_query db sch t))
                          (env _ tr (Sql sess (rowcount_query db sch t)))]).
Proof.
  unfold rowcount. rewrite run_bind, run_sql.
  destruct (env _ tr _) as [rs|e]; [|eexists; reflexivity].
  rewrite run_bind, run_list_item. destruct (rs_rows rs !! 0%nat); [|eexists; reflexivity].
  rewrite run_row_item. eexists; reflexivity.
Qed.

Lemma run_get_table_ddl sess db sch t env tr :
  ∃ r, run (get_table_ddl sess db sch t) env tr
       = (r, tr ++ [ECall (Sql sess (get_ddl_query db sch t))
                          (env _ tr (Sql sess (get_ddl_query db sch t)))]).
Proof.
  unfold get_table_ddl. rewrite run_bind, run_sql.
  destruct (env _ tr _) as [rs|e]; [|eexists; reflexivity].
  rewrite run_bind, run_list_item. destruct (rs_rows rs !! 0%nat); [|eexists; reflexivity].
  rewrite run_row_item. eexists; reflexivity.
Qed.

Lemma run_get_table_columns sess db sch t env tr :
  ∃ r, run (get_table_columns sess db sch t) env tr
       = (r, tr ++ [ECall (Sql sess (columns_query db sch t))
                          (env _ tr (Sql sess (columns_query db sch t)))]).
Proof.
  unfold get_table_columns. rewrite run_bind, run_sql.
  destruct (env _ tr _) as [rs|e]; [|eexists; reflexivity].
  destruct (run_first_cells (rs_rows rs) env
              (tr ++ [ECall (Sql sess (columns_query db sch t)) (Ok rs)])) as [r ->].
  eexists; reflexivity.
Qed.

(** Replace the run of a one-statement helper by its result and its log. *)
Ltac run_helper lem :=
  match goal with
  | |- context [run (?f ?s ?d ?c ?t) ?env ?tr1] =>
      let r := fresh "r" in
      destruct (lem s d c t env tr1) as [r ->]; destruct r; [|try discriminate]
  end.

Ltac close_delta :=
  rewrite <- ?app_assoc; eexists; split; [reflexivity|]; reflexivity.

Lemma step0_requests env tr n i table v tr0 :
  run (step0_analyze args n i table) env tr = (Ok v, tr0) →
  ∃ d, tr0 = tr ++ d ∧
       requests d =
         [AnyReq (Sql (arg_src_sess args)
                    (rowcount_query (arg_source_db args) (arg_source_schema args) table));
          AnyReq (Sql (arg_src_sess args)
                    (columns_query (arg_source_db args) (arg_source_schema args) table))].
Proof.
  unfold step0_analyze, print. rewrite !run_emit_bind, run_bind.
  run_helper run_rowcount. rewrite run_bind. run_helper run_get_table_columns.
  rewrite run_mret. intros [= <- <-]. close_delta.
Qed.










Lemma migrate_table_names_its_table env tr n i table o tr' :
  run (migrate_table lib args n i table) env tr = (Ok o, tr') → o_table o = table.
Proof.
  intros H. apply migrate_table_inv in H.
  destruct H as (cnt & cols & tr0 & _ & [(_ & -> & _) | (_ & H)]); [reflexivity|].
  destruct H as (? & ? & ? & ? & ? & _ & _ & _ & [(_ & -> & _) | (_ & H)]); [reflexivity|].
  destruct H as (? & ? & ? & ? & ? & ? & ? & ? & ? & ? & _ & _ & _ & _ & _ & _ & _ & H).
  apply step8_validate_inv in H. destruct H as (t & ? & _ & ->). reflexivity.
Qed.

(** What [except Exception] does with a raising body. *)
Lemma migrate_one_raise env tr n i table e tr1 :
  run (migrate_table lib args n i table) env tr = (Raise e, tr1) →
  ∃ d, requests d = [] ∧
       run (migrate_one lib args n i table) env tr = (Ok (error_outcome table), tr1 ++ d).
Proof.
  intros H. unfold migrate_one. rewrite run_try_except, H.
  unfold print, logging_error. rewrite !run_emit_bind, run_mret.
  rewrite <- app_assoc. eexists; split; [|reflexivity]. reflexivity.
Qed.

Lemma migrate_one_ok env tr n i table o tr1 :
  run (migrate_table lib args n i table) env tr = (Ok o, tr1) →
  run (migrate_one lib args n i table) env tr = (Ok o, tr1).
Proof. intros H. unfold migrate_one. rewrite run_try_except, H. reflexivity. Qed.

Lemma migrate_one_total env tr n i table :
  ∃ o tr', run (migrate_one lib args n i table) env tr = (Ok o, tr') ∧ o_table o = table.
Proof.
  destruct (run (migrate_table lib args n i table) env tr) as [[o|e] tr1] eqn:H.
  - exists o, tr1. split; [apply migrate_one_ok, H | eapply migrate_table_names_its_table, H].
  - destruct (migrate_one_raise _ _ _ _ _ _ _ H) as (d & _ & Hd).
    exists (error_outcome table), (tr1 ++ d). split; [exact Hd | reflexivity].
Qed.

Lemma migrate_loop_total env tables : ∀ tr n i summary0,
  ∃ summary tr',
    run (migrate_loop lib args n i tables summary0) env tr = (Ok (summary0 ++ summary), tr')
    ∧ o_table <$> summary = tables.
Proof.
  induction tables as [|table rest IH]; intros tr n i summary0; simpl.
  - exists [], tr. rewrite app_nil_r. split; reflexivity.
  - destruct (migrate_one_total env tr n i table) as (o & tr1 & Ho & Hname).
    rewrite (run_bind_ok _ _ _ _ _ _ Ho).
    destruct (IH tr1 n (S i) (summary0 ++ [o])) as (summary & tr' & -> & Hnames).
    exists (o :: summary), tr'. rewrite <- app_assoc. split; [reflexivity|].
    rewrite fmap_cons, Hname, Hnames. reflexivity.
Qed.



(** C7.  When the analysis step returns an empty column list, the entry
    recorded for the table is [NO_COLUMNS] with both counts at -1, and the
    only requests of the whole iteration are the row count and the column
    list read on the source session: no DDL is fetched, nothing is sent to
    the target. *)
Theorem no_columns_skips_remaining_steps env tr n i table src_cnt tr0 :
  run (step0_analyze args n i table) env tr = (Ok (src_cnt, []), tr0) →
  ∃ delta,
    run (migrate_one lib args n i table) env tr
      = (Ok (mkOutcome table (PInt (-1)) (PInt (-1)) NO_COLUMNS), tr ++ delta) ∧
    requests delta =
      [AnyReq (Sql (arg_src_sess args)
                 (rowcount_query (arg_source_db args) (arg_source_schema args) table));
       AnyReq (Sql (arg_src_sess args)
                 (columns_query (arg_source_db args) (arg_source_schema args) table))].
Proof.
  intros H0. destruct (step0_requests _ _ _ _ _ _ _ H0) as (d & -> & Hd).
  unfold migrate_one, migrate_table.
  rewrite run_try_except, (run_bind_ok _ _ _ _ _ _ H0). cbv beta iota.
  unfold print. rewrite run_emit_bind, run_mret.
  rewrite <- app_assoc. eexists; split; [reflexivity|].
  rewrite requests_app, Hd. reflexivity.
Qed.


(** C1, as amended.  For a table whose analysis step returned a row count
    other than 0 and a non-empty column list, and whose loop body returns
    without raising: the load ran, the permission step ran after it, the
    target row count was read after that, and the recorded entry holds the
    count taken at the analysis step and this target count.  The status is
    [OK] exactly when the two counts are equal and [ROWCOUNT_MISMATCH]
    exactly when they differ. *)
Theorem reconcile_against_analysis_count env tr n i table src_cnt src_columns tr0 o tr' :
  run (step0_analyze args n i table) env tr = (Ok (src_cnt, src_columns), tr0) →
  src_columns ≠ [] →
  src_cnt ≠ PInt 0 →
  run (migrate_table lib args n i table) env tr = (Ok o, tr') →
  ∃ ts tr_before_load tr_loaded owner grants tr_perm t_cnt tr_cnt,
    run (step6_load args ts table) env tr_before_load = (Ok (), tr_loaded) ∧
    run (step7_permissions args table owner grants) env tr_loaded = (Ok (), tr_perm) ∧
    run (rowcount (arg_tgt_sess args) (arg_target_db args) (arg_target_schema args) table) env
        (tr_perm ++ [EPrint "   🔍 Validating data integrity..."]) = (Ok t_cnt, tr_cnt) ∧
    o = mkOutcome table src_cnt t_cnt (if py_eqb src_cnt t_cnt then OK else ROWCOUNT_MISMATCH) ∧
    (o_status o = OK ↔ src_cnt = t_cnt) ∧
    (o_status o = ROWCOUNT_MISMATCH ↔ src_cnt ≠ t_cnt).
Proof.
  intros H0 Hcols Hcnt H. apply migrate_table_inv in H.
  destruct H as (cnt & cols & tr0_ & H0' & H). rewrite H0 in H0'. injection H0' as <- <- <-.
  destruct H as [(-> & _) | (_ & H)]; [contradiction|].
  destruct H as (? & ? & owner & grants & ? & _ & _ & _ & [(Hz & _) | (_ & H)]).
  { apply py_eqb_eq in Hz. contradiction. }
  destruct H as (ts & ? & ? & ? & ? & ? & ? & tr6 & tr6' & tr7 & _ & _ & _ & _ & _ & H6 & H7 & H8).
  apply step8_validate_inv in H8. destruct H8 as (t_cnt & tr_t & Ht & ->).
  exists ts, tr6, tr6', owner, grants, tr7, t_cnt, tr_t.
  split; [exact H6|]. split; [exact H7|]. split; [exact Ht|]. split; [reflexivity|].
  simpl. destruct (py_eqb src_cnt t_cnt) eqn:E.
  - apply py_eqb_eq in E. split; split; intros; try reflexivity; try assumption; try discriminate.
    contradiction.
  - assert (src_cnt ≠ t_cnt) by (intros Heq; apply py_eqb_eq in Heq; congruence).
    split; split; intros; try reflexivity; try assumption; try discriminate. contradiction.
Qed.














End PipelineFacts.

(** ** Pre-flight validation in [main] *)

Lemma index_tables_strings u (catalog : list string) : ∀ (m : gmap string string) env tr,
  ∃ m', run (index_tables u (PStr <$> catalog) m) env tr = (Ok m', tr) ∧
        ∀ k, m' !! k = None ↔ (m !! k = None ∧ k ∉ upper u <$> catalog).
Proof.
  induction catalog as [|c rest IH]; intros m env tr.
  - exists m. split; [reflexivity|]. intros k. rewrite fmap_nil. split.
    + intros H. split; [exact H|]. apply not_elem_of_nil.
    + intros [H _]. exact H.
  - rewrite fmap_cons. simpl index_tables. unfold str_method. rewrite run_bind_mret.
    destruct (IH (<[upper u c := c]> m) env tr) as (m' & -> & Hm').
    exists m'. split; [reflexivity|]. intros k. rewrite Hm', lookup_insert_None, fmap_cons,
      not_elem_of_cons. split.
    + intros [[Hm Hne] Hrest]. split; [exact Hm|]. split; [congruence | exact Hrest].
    + intros [Hm [Hne Hrest]]. split; [|exact Hrest]. split; [exact Hm | congruence].
Qed.

Lemma run_list_tables sess db schema env tr :
  ∃ r, run (list_tables sess db schema) env tr
       = (r, tr ++ [ECall (Sql sess (list_tables_query db schema))
                          (env _ tr (Sql sess (list_tables_query db schema)))]).
Proof.
  unfold list_tables. rewrite run_bind, run_sql.
  destruct (env _ tr _) as [rs|e]; [|eexists; reflexivity].
  destruct (run_first_cells (rs_rows rs) env
              (tr ++ [ECall (Sql sess (list_tables_query db schema)) (Ok rs)])) as [r ->].
  eexists; reflexivity.
Qed.

Lemma run_fatal {A} msg env tr :
  run (_fatal msg : M A) env tr = (Raise (Exception msg), tr ++ [ELog LvlError msg]).
Proof. reflexivity. Qed.

(** What [main] does between the target preparation and the validation: the
    two statements that set the context of the source session. *)
Lemma main_prepare_inv lib cfg env tr tr' :
  run (main_prepare lib cfg) env tr = (Ok (), tr') →
  ∃ tr_target d,
    run (ensure_db_schema (unicode lib) Tgt (TARGET_DB cfg) (Some (TARGET_SCHEMA cfg))) env
        (tr ++ [EPrint "🏗️  Preparing target database and schema..."]) = (Ok (), tr_target)
    ∧ tr' = tr_target ++ d
    ∧ requests d =
        [AnyReq (Sql Src ("USE DATABASE " +:+ quoted (SOURCE_DB cfg)));
         AnyReq (Sql Src ("USE SCHEMA " +:+ quoted (SOURCE_DB cfg) +:+ "."
                          +:+ quoted (SOURCE_SCHEMA cfg)))].
Proof.
  intros H. unfold main_prepare, print in H. rewrite run_emit_bind in H.
  bind_inv H. destruct a. exists tr0. rewrite run_try_except, run_bind, run_sql in H.
  destruct (env ResultSet tr0 (Sql Src ("USE DATABASE " +:+ quoted (SOURCE_DB cfg))))
    as [rs1|e1]; [|rewrite run_fatal in H; discriminate H].
  rewrite run_bind, run_sql in H.
  destruct (env ResultSet _ (Sql Src ("USE SCHEMA " +:+ quoted (SOURCE_DB cfg) +:+ "."
                                       +:+ quoted (SOURCE_SCHEMA cfg))))
    as [rs2|e2]; [|rewrite run_fatal in H; discriminate H].
  unfold logging_info in H. rewrite run_emit in H. injection H as <-.
  rewrite <- !app_assoc. eexists. split; [exact Hrun|]. split; reflexivity.
Qed.

(** C4, as amended.  Once the connections are made, the target database and
    schema are prepared and the context of the source session is set, if
    some requested name, upper-cased, equals no upper-cased name of the
    source catalog, [main] raises the fatal error whose text lists the
    upper-cased missing names, all of them.  Between the preparation of the
    target and the error the only requests are the two USE statements on the
    source session and the catalog listing on the source, so no table is
    migrated. *)
Theorem missing_tables_abort_before_migration lib cfg env tr start base tr1 tr2 catalog tr3 :
  let u := unicode lib in
  run (main_connect lib cfg) env tr = (Ok (start, base), tr1) →
  run (main_prepare lib cfg) env tr1 = (Ok (), tr2) →
  run (list_tables Src (SOURCE_DB cfg) (SOURCE_SCHEMA cfg)) env
      (tr2 ++ [EPrint "🔍 Validating source tables..."]) = (Ok (PStr <$> catalog), tr3) →
  filter (λ w, w ∉ upper u <$> catalog) (upper u <$> TABLES cfg) ≠ [] →
  let missing := filter (λ w, w ∉ upper u <$> catalog) (upper u <$> TABLES cfg) in
  run (main lib cfg) env tr
    = (Raise (Exception (missing_message u cfg missing)),
       tr3 ++ [ELog LvlError (missing_message u cfg missing)])
  ∧ (∀ t, t ∈ TABLES cfg → upper u t ∉ upper u <$> catalog → upper u t ∈ missing)
  ∧ (∃ tr_target d,
       run (ensure_db_schema u Tgt (TARGET_DB cfg) (Some (TARGET_SCHEMA cfg))) env
           (tr1 ++ [EPrint "🏗️  Preparing target database and schema..."]) = (Ok (), tr_target)
       ∧ tr3 = tr_target ++ d
       ∧ requests d =
           [AnyReq (Sql Src ("USE DATABASE " +:+ quoted (SOURCE_DB cfg)));
            AnyReq (Sql Src ("USE SCHEMA " +:+ quoted (SOURCE_DB cfg) +:+ "."
                             +:+ quoted (SOURCE_SCHEMA cfg)));
            AnyReq (Sql Src (list_tables_query (SOURCE_DB cfg) (SOURCE_SCHEMA cfg)))]).
Proof.
  intros u Hconn Hprep Hlist Hmiss missing.
  split; [|split].
  - unfold main. rewrite (run_bind_ok _ _ _ _ _ _ Hconn). cbv beta iota.
    rewrite (run_bind_ok _ _ _ _ _ _ Hprep).
    unfold validate_tables, print. rewrite run_bind, run_emit_bind.
    rewrite (run_bind_ok _ _ _ _ _ _ Hlist).
    destruct (index_tables_strings u catalog ∅ env tr3) as (available & Hidx & Hdom).
    fold u. rewrite (run_bind_ok _ _ _ _ _ _ Hidx). cbv zeta.
    assert (Heq : missing_tables available (upper u <$> TABLES cfg) = missing).
    { unfold missing_tables, missing. apply list_filter_iff. intros w. rewrite Hdom.
      rewrite lookup_empty. tauto. }
    rewrite Heq. destruct missing as [|w ws] eqn:Hm; [contradiction|].
    rewrite run_fatal. reflexivity.
  - intros t Ht Hnot. unfold missing. apply list_elem_of_filter. split; [exact Hnot|].
    apply list_elem_of_fmap. exists t. split; [reflexivity | exact Ht].
  - destruct (main_prepare_inv _ _ _ _ _ Hprep) as (tr_target & d & Hens & -> & Hd).
    exists tr_target.
    destruct (run_list_tables Src (SOURCE_DB cfg) (SOURCE_SCHEMA cfg) env
                ((tr_target ++ d) ++ [EPrint "🔍 Validating source tables..."])) as [r Hr].
    rewrite Hr in Hlist. injection Hlist as _ <-.
    rewrite <- !app_assoc. eexists. split; [exact Hens|]. split; [reflexivity|].
    rewrite !requests_app, Hd. reflexivity.
Qed.

(** ** Concrete runs *)

(** A failing load on the first of two tables: the second is still migrated. *)
Example bad_load_summary :
  fst (run (migrate_tables demo_lib demo_args ["BAD"; "EMP"]) (scripted sc_bad_load) [])
  = Ok [error_outcome "BAD"; mkOutcome "EMP" (PInt 1234) (PInt 1234) OK].
Proof. vm_compute. reflexivity. Qed.

(** A table that counts five rows while the catalog lists no column for it:
    the loop body returns without raising, yet nothing is loaded or counted on
    the target and the status is neither [OK] nor [ROWCOUNT_MISMATCH]. *)
Lemma nonzero_rows_without_columns_are_not_reconciled :
  fst (run (step0_analyze demo_args 1 1 "EMP") (scripted sc_no_columns) [])
  = Ok (PInt 5, [])
  ∧ fst (run (migrate_table demo_lib demo_args 1 1 "EMP") (scripted sc_no_columns) [])
    = Ok (mkOutcome "EMP" (PInt (-1)) (PInt (-1)) NO_COLUMNS)
  ∧ statements_on Tgt
      (snd (run (migrate_table demo_lib demo_args 1 1 "EMP") (scripted sc_no_columns) []))
    = [].
Proof. repeat split; vm_compute; reflexivity. Qed.

Lemma reconcile_against_analysis_count_witness :
  ∃ tr', run (migrate_table demo_lib demo_args 1 1 "EMP") (scripted sc_healthy) []
         = (Ok (mkOutcome "EMP" (PInt 1234) (PInt 1234) OK), tr')
  ∧ ∃ ts tr_before_load tr_loaded owner grants tr_perm t_cnt tr_cnt,
    run (step6_load demo_args ts "EMP") (scripted sc_healthy) tr_before_load = (Ok (), tr_loaded) ∧
    run (step7_permissions demo_args "EMP" owner grants) (scripted sc_healthy) tr_loaded
      = (Ok (), tr_perm) ∧
    run (rowcount Tgt "TGT_DB" "SALES" "EMP") (scripted sc_healthy)
        (tr_perm ++ [EPrint "   🔍 Validating data integrity..."]) = (Ok t_cnt, tr_cnt) ∧
    mkOutcome "EMP" (PInt 1234) (PInt 1234) OK
      = mkOutcome "EMP" (PInt 1234) t_cnt
          (if py_eqb (PInt 1234) t_cnt then OK else ROWCOUNT_MISMATCH) ∧
    (OK = OK ↔ PInt 1234 = t_cnt) ∧
    (OK = ROWCOUNT_MISMATCH ↔ PInt 1234 ≠ t_cnt).
Proof.
  eexists. split; [vm_compute; reflexivity|].
  eapply (reconcile_against_analysis_count demo_lib demo_args (scripted sc_healthy) [] 1 1 "EMP"
            (PInt 1234) [PStr "ID"; PStr "NAME"]).
  - vm_compute. reflexivity.
  - discriminate.
  - discriminate.
  - vm_compute. reflexivity.
Defined.



Lemma no_columns_skips_remaining_steps_witness :
  ∃ delta,
    run (migrate_one demo_lib demo_args 1 1 "EMP") (scripted sc_no_columns) []
      = (Ok (mkOutcome "EMP" (PInt (-1)) (PInt (-1)) NO_COLUMNS), delta) ∧
    requests delta =
      [AnyReq (Sql Src (rowcount_query "SRC_DB" "SALES" "EMP"));
       AnyReq (Sql Src (columns_query "SRC_DB" "SALES" "EMP"))].
Proof.
  eapply (no_columns_skips_remaining_steps demo_lib demo_args (scripted sc_no_columns) [] 1 1
            "EMP" (PInt 5)).
  vm_compute. reflexivity.
Defined.



(** The names GHOST and PHANTOM are not in the catalog: the run aborts with
    both in the error, after the target session has been connected, its
    warehouse attached, and its database and schema created and selected. *)
Lemma missing_table_abort_comes_after_target_setup :
  fst (run (main demo_lib ghost_config) (scripted sc_healthy) [])
  = Raise (Exception "❌ These tables do not exist in SRC_DB.SALES: ['GHOST', 'PHANTOM']")
  ∧ statements_on Tgt (snd (run (main demo_lib ghost_config) (scripted sc_healthy) []))
    = [ "USE ROLE " +:+ quoted "ACCOUNTADMIN";
        "SELECT CURRENT_USER(), CURRENT_ROLE(), CURRENT_VERSION()";
        "SHOW WAREHOUSES LIKE 'COMPUTE_WH'";
        "USE WAREHOUSE " +:+ quoted "COMPUTE_WH";
        "CREATE DATABASE IF NOT EXISTS " +:+ quoted "TGT_DB";
        "USE DATABASE " +:+ quoted "TGT_DB";
        "CREATE SCHEMA IF NOT EXISTS " +:+ quoted "TGT_DB" +:+ "." +:+ quoted "SALES";
        "USE SCHEMA " +:+ quoted "TGT_DB" +:+ "." +:+ quoted "SALES" ].
Proof. split; vm_compute; reflexivity. Qed.

Lemma missing_tables_abort_before_migration_witness :
  ∃ tr2 tr3,
    run (main_prepare demo_lib ghost_config) (scripted sc_healthy)
        (snd (run (main_connect demo_lib ghost_config) (scripted sc_healthy) [])) = (Ok (), tr2)
    ∧ run (main demo_lib ghost_config) (scripted sc_healthy) []
      = (Raise (Exception (missing_message demo_unicode ghost_config ["GHOST"; "PHANTOM"])),
         tr3 ++ [ELog LvlError (missing_message demo_unicode ghost_config ["GHOST"; "PHANTOM"])])
    ∧ (∃ tr_target d,
         run (ensure_db_schema demo_unicode Tgt "TGT_DB" (Some "SALES")) (scripted sc_healthy)
             (snd (run (main_connect demo_lib ghost_config) (scripted sc_healthy) [])
              ++ [EPrint "🏗️  Preparing target database and schema..."]) = (Ok (), tr_target)
         ∧ tr3 = tr_target ++ d
         ∧ requests d =
             [AnyReq (Sql Src ("USE DATABASE " +:+ quoted "SRC_DB"));
              AnyReq (Sql Src ("USE SCHEMA " +:+ quoted "SRC_DB" +:+ "." +:+ quoted "SALES"));
              AnyReq (Sql Src (list_tables_query "SRC_DB" "SALES"))]).
Proof.
  eexists _, _. split; [vm_compute; reflexivity|].
  edestruct (missing_tables_abort_before_migration demo_lib ghost_config (scripted sc_healthy) [])
    with (catalog := ["EMP"; "Orders"]) as (Hrun & _ & Hreq).
  - vm_compute. reflexivity.
  - vm_compute. reflexivity.
  - vm_compute. reflexivity.
  - vm_compute. discriminate.
  - split; [exact Hrun | exact Hreq].
Defined.



